(** * Healthcare AR Management Dashboard: the scoring and aggregation pipeline

    A shallow embedding of [src/app.py] (a Streamlit script over pandas and
    numpy) and the properties of its data fetch, priority scoring, threshold
    filter, summary metrics, top-10 selection and aging aggregation.

    Conventions of the embedding.
    - Python floats are read as exact rationals ([Q]); integers are the
      rationals [inject_Z z].  The rounding of binary64 arithmetic is not
      modelled, with one exception: where the script turns a product into
      an integer (line 113) the product is rounded to binary64 first
      ([binary64]), since the integer depends on its last bit.
    - A Python dict (a mock record, a JSON object of the payments API) is a
      [gmap string cell]; a pandas [DataFrame] is its set of column labels
      with its list of rows.  Column order, which only the display and the
      CSV export look at, is not modelled.
    - Everything the script asks of the outside world (the clock, numpy's
      random generator, the HTTP request, the Streamlit widgets and outputs)
      is an [event]; a script is a [prog], a tree of events that ends in a
      value or in a raised exception.  [run] executes a [prog] against a
      handler that answers the events, and records what was asked and
      answered.
    - Timestamps are integers counting nanoseconds.
    - The script is followed from the sidebar inputs of line 78 to the aging
      chart of line 130.  [st.cache_data] is not modelled: every fetch is
      a cache miss. *)

From Stdlib Require Import ZArith QArith Qpower Lqa Lia Permutation Sorted.
From Stdlib Require Import OrderedTypeEx.
From stdpp Require Import base gmap strings list pretty.

Open Scope Q_scope.

(** ** Cells, exceptions and results *)

(** What a cell of a frame can hold: text, a number, a timestamp, or the
    missing value ([None], [NaN] and [NaT] alike). *)
Inductive cell : Type :=
| CStr (s : string)
| CNum (q : Q)
| CTime (t : Z)
| CNaN.

Abbreviation dict := (gmap string cell).
Abbreviation Series := (list cell).

Inductive exn : Type :=
| KeyError (key : string)
| TypeError
| ValueError
| RequestException (msg : string)
| JSONDecodeError
| StopException.

Inductive result (A : Type) : Type :=
| Ok (a : A)
| Raise (e : exn).
Arguments Ok {A} a.
Arguments Raise {A} e.

#[global] Instance result_ret : MRet result := fun A a => Ok a.
#[global] Instance result_bind : MBind result := fun A B f r =>
  match r with
  | Ok a => f a
  | Raise e => Raise e
  end.

(** ** Rational helpers *)

Definition Qlt_bool (x y : Q) : bool := negb (Qle_bool y x).

Definition Qmaximum (x y : Q) : Q := if Qle_bool x y then y else x.
Definition Qminimum (x y : Q) : Q := if Qle_bool x y then x else y.

(** [numpy.clip(x, lo, hi)] is [minimum(maximum(x, lo), hi)]. *)
Definition clip (x lo hi : Q) : Q := Qminimum (Qmaximum x lo) hi.

(** [numpy.round(x, 0)] rounds to the nearest integer, halves to the even
    neighbour. *)
Definition round_half_even (x : Q) : Z :=
  let n := Qnum x in
  let d := Z.pos (Qden x) in
  let f := (n / d)%Z in
  let r := (2 * (n mod d))%Z in
  if (r <? d)%Z then f
  else if (d <? r)%Z then (f + 1)%Z
  else if Z.even f then f else (f + 1)%Z.

(** The largest [k] with [2 ^ k <= x], for a positive [x]. *)
Definition Qlog2 (x : Q) : Z :=
  let k := (Z.log2 (Qnum x) - Z.log2 (Z.pos (Qden x)))%Z in
  if Qle_bool (2 ^ k) x then k else (k - 1)%Z.

(** The binary64 numbers next to a positive [x] are the multiples of
    [2 ^ e] for the [e] that leaves 53 bits to [x], and for [e = -1074]
    below the normal range. *)
Definition binary64_exponent (x : Q) : Z := Z.max (Qlog2 x - 52) (-1074).

Definition binary64_abs (x : Q) : Q :=
  let e := binary64_exponent x in
  inject_Z (round_half_even (x / 2 ^ e)) * 2 ^ e.

(** The binary64 number nearest to [x], the one of even significand of
    two: what a float holds after an operation of exact result [x], and
    what Python reads from a decimal literal.  No infinity: the script
    does not come near the largest binary64 number. *)
Definition binary64 (x : Q) : Q :=
  if Qle_bool 0 x then binary64_abs x else - binary64_abs (- x).

Definition Qsum (l : list Q) : Q := foldr Qplus 0 l.

(** ** Series: element-wise operations *)

(** Arithmetic of two numeric cells.  A missing operand gives a missing
    result; text and timestamps are not numbers. *)
Definition cell_binop (f : Q → Q → Q) (a b : cell) : result cell :=
  match a, b with
  | CNum x, CNum y => Ok (CNum (f x y))
  | CNum _, CNaN | CNaN, CNum _ | CNaN, CNaN => Ok CNaN
  | _, _ => Raise TypeError
  end.

(** [series op scalar]. *)
Definition series_scalar (f : Q → Q → Q) (s : Series) (k : Q) : result Series :=
  mapM (fun c => cell_binop f c (CNum k)) s.

(** [series op series], position by position. *)
Fixpoint series_binop (f : Q → Q → Q) (a b : Series) : result Series :=
  match a, b with
  | [], [] => Ok []
  | x :: a', y :: b' =>
      z ← cell_binop f x y; r ← series_binop f a' b'; mret (z :: r)
  | _, _ => Raise ValueError
  end.

(** A comparison of a series with a number: a mask.  A missing value
    compares false; text and timestamps cannot be compared with a number. *)
Definition cell_cmp (p : Q → Q → bool) (k : Q) (c : cell) : result bool :=
  match c with
  | CNum x => Ok (p x k)
  | CNaN => Ok false
  | _ => Raise TypeError
  end.

Definition series_ge (s : Series) (k : Q) : result (list bool) :=
  mapM (cell_cmp (fun x y => Qle_bool y x) k) s.
Definition series_gt (s : Series) (k : Q) : result (list bool) :=
  mapM (cell_cmp (fun x y => Qlt_bool y x) k) s.

(** [series == text]: never raises. *)
Definition cell_eq_str (v : string) (c : cell) : bool :=
  match c with
  | CStr s => bool_decide (s = v)
  | _ => false
  end.
Definition series_eq_str (s : Series) (v : string) : list bool :=
  map (cell_eq_str v) s.

(** [series.map(d)] looks every value up in the dict [d]; what is not a
    key becomes missing. *)
Definition series_map (d : gmap string Q) (s : Series) : Series :=
  map (fun c => match c with
                | CStr k => match d !! k with Some v => CNum v | None => CNaN end
                | _ => CNaN
                end) s.

Definition fillna (v : Q) (s : Series) : Series :=
  map (fun c => match c with CNaN => CNum v | _ => c end) s.

(** [numpy.where(mask, x, y)] with two scalars of the same type. *)
Definition np_where {A} (mask : list bool) (x y : A) : list A :=
  map (fun b : bool => if b then x else y) mask.

Definition np_clip (s : Series) (lo hi : Q) : Series :=
  map (fun c => match c with CNum x => CNum (clip x lo hi) | _ => c end) s.

(** [series.sum()] skips missing values; [series.mean()] of no value at
    all is [NaN]. *)
Fixpoint numeric_values (s : Series) : result (list Q) :=
  match s with
  | [] => Ok []
  | CNum x :: s' => r ← numeric_values s'; mret (x :: r)
  | CNaN :: s' => numeric_values s'
  | _ :: _ => Raise TypeError
  end.

Definition series_sum (s : Series) : result Q :=
  v ← numeric_values s; mret (Qsum v).

Definition series_mean (s : Series) : result cell :=
  v ← numeric_values s;
  mret (match v with
        | [] => CNaN
        | _ => CNum (Qsum v / inject_Z (Z.of_nat (length v)))
        end).

(** ** Frames *)

Record DataFrame : Type := mkDataFrame {
  columns : gset string;
  rows : list dict
}.

(** [pd.DataFrame()] *)
Definition DataFrame_empty : DataFrame := mkDataFrame ∅ [].

(** [pd.DataFrame(data)] for a list of dicts: the columns are the keys
    that occur. *)
Definition DataFrame_of (data : list dict) : DataFrame :=
  mkDataFrame (foldr (fun r acc => dom r ∪ acc) ∅ data) data.

(** [df.empty] *)
Definition empty (df : DataFrame) : bool :=
  bool_decide (columns df = ∅) || bool_decide (rows df = []).

(** [len(df)] *)
Definition len (df : DataFrame) : nat := length (rows df).

(** The cell of a row under a label; a key the row does not have reads
    as missing. *)
Definition cell_at (c : string) (r : dict) : cell := default CNaN (r !! c).

(** [df[c]] *)
Definition getcol (df : DataFrame) (c : string) : result Series :=
  if bool_decide (c ∈ columns df)
  then Ok (map (cell_at c) (rows df))
  else Raise (KeyError c).

(** [df[c] = series] *)
Definition setcol (df : DataFrame) (c : string) (s : Series) : result DataFrame :=
  if bool_decide (length s = length (rows df))
  then Ok (mkDataFrame ({[c]} ∪ columns df)
             (zip_with (fun (r : dict) v => <[c := v]> r) (rows df) s))
  else Raise ValueError.

(** [df[mask]] *)
Fixpoint select_rows {A} (l : list A) (mask : list bool) : list A :=
  match l, mask with
  | x :: l', b :: mask' =>
      if b then x :: select_rows l' mask' else select_rows l' mask'
  | _, _ => []
  end.

Definition select (df : DataFrame) (mask : list bool) : DataFrame :=
  mkDataFrame (columns df) (select_rows (rows df) mask).

(** [df.head(n)] *)
Definition head (n : nat) (df : DataFrame) : DataFrame :=
  mkDataFrame (columns df) (take n (rows df)).

(** [df[cols]] for a list of labels.  Of the labels that are missing the
    [KeyError] names the first; pandas names them all in one message. *)
Definition getcols (df : DataFrame) (cols : list string) : result DataFrame :=
  match list_find (fun c => c ∉ columns df) cols with
  | Some (_, c) => Raise (KeyError c)
  | None =>
      Ok (mkDataFrame (list_to_set cols)
            (map (fun r : dict => filter (fun kv => kv.1 ∈ cols) r) (rows df)))
  end.

(** ** The outside world: events and their answers *)

(** A value of a JSON object of the payments API. *)
Inductive json : Type :=
| JStr (s : string)
| JNum (q : Q)
| JNull.

Definition cell_of_json (j : json) : cell :=
  match j with
  | JStr s => CStr s
  | JNum q => CNum q
  | JNull => CNaN
  end.

(** The body of a response: not a JSON object at all, or an object whose
    ["data"] entry, when present, is a list of flat objects. *)
Inductive json_body : Type :=
| NotJson
| JsonObject (data : option (list (gmap string json))).

(** What [requests.get] can do: raise (no connection, timeout after the
    given number of seconds, ...) or return a response. *)
Inductive http_outcome : Type :=
| ConnectionFailed (msg : string)
| Response (status_code : Z) (body : json_body).

(** A query parameter; the text form of a date ([strftime]) is not
    modelled. *)
Inductive param : Type :=
| PDate (d : Z)
| PInt (n : Z).

(** What the script shows. *)
Inductive ui : Type :=
| st_info (msg : string)
| st_error_api (status_code : Z)
| st_error_connection (e : exn)
| st_warning (msg : string)
| st_metric (label : string) (value : cell)
| st_markdown (body : string)
| st_subheader (body : string)
| st_dataframe (data : DataFrame)
| st_altair_chart (data : list (string * Q)).

Inductive event : Type :=
| requests_get (url : string) (headers : list (string * string))
    (params : list (string * param)) (timeout : Z)
| datetime_now
| np_random_randint (low high : Z)
| np_random_choice (a : list string) (p : option (list Q))
| np_random_uniform (low high : Q)
| np_random_rand
| st_date_input (label : string) (value : Z)
| st_slider (label : string) (min_value max_value value : Q)
| st_show (u : ui).

Definition answer (ev : event) : Type :=
  match ev with
  | requests_get _ _ _ _ => http_outcome
  | datetime_now => Z
  | np_random_randint _ _ => Z
  | np_random_choice _ _ => string
  | np_random_uniform _ _ => Q
  | np_random_rand => Q
  | st_date_input _ _ => Z
  | st_slider _ _ _ _ => Q
  | st_show _ => unit
  end.

(** ** Scripts *)

Inductive prog (A : Type) : Type :=
| Ret (a : A)
| Throw (e : exn)
| Vis (ev : event) (k : answer ev → prog A).
Arguments Ret {A} a.
Arguments Throw {A} e.
Arguments Vis {A} ev k.

Fixpoint bind {A B} (p : prog A) (f : A → prog B) : prog B :=
  match p with
  | Ret a => f a
  | Throw e => Throw e
  | Vis ev k => Vis ev (fun x => bind (k x) f)
  end.

#[global] Instance prog_ret : MRet prog := fun A a => Ret a.
#[global] Instance prog_bind : MBind prog := fun A B f p => bind p f.

Definition call (ev : event) : prog (answer ev) := Vis ev Ret.

Definition lift {A} (r : result A) : prog A :=
  match r with
  | Ok a => Ret a
  | Raise e => Throw e
  end.

(** [try: p except Exception as e: h e].  [st.stop()] raises outside the
    [Exception] hierarchy and is not caught. *)
Fixpoint try_except {A} (p : prog A) (h : exn → prog A) : prog A :=
  match p with
  | Ret a => Ret a
  | Throw StopException => Throw StopException
  | Throw e => h e
  | Vis ev k => Vis ev (fun x => try_except (k x) h)
  end.

(** One step of a run: the event and the answer it got. *)
Record entry : Type := Entry { asked : event; got : answer asked }.

Abbreviation trace := (list entry).

(** A handler answers every event, from a state of its own. *)
Definition handler (S : Type) : Type := ∀ ev : event, S → answer ev * S.

Fixpoint run {S A} (h : handler S) (p : prog A) (s : S) : result A * S * trace :=
  match p with
  | Ret a => (Ok a, s, [])
  | Throw e => (Raise e, s, [])
  | Vis ev k =>
      let '(x, s1) := h ev s in
      let '(r, s2, tr) := run h (k x) s1 in
      (r, s2, Entry ev x :: tr)
  end.

(** ** CONFIG *)

Definition API_BASE : string := "https://api.nikohealth.com".

(** [USE_REAL_API = API_KEY is not None] *)
Definition USE_REAL_API (API_KEY : option string) : bool :=
  match API_KEY with Some _ => true | None => false end.

(** ** Dates *)

Definition day : Z := 86400000000000.

(** [timedelta(days=n)] *)
Definition timedelta (days : Z) : Z := (days * day)%Z.

(** [pd.date_range(start, end, freq="D")]: [start], [start] + 1 day, ...
    up to [end]. *)
Definition date_range (start end_ : Z) : list Z :=
  if (end_ <? start)%Z then []
  else map (fun k : nat => (start + timedelta (Z.of_nat k))%Z)
         (seq 0 (S (Z.to_nat ((end_ - start) / day)))).

Fixpoint enumerate_from {A} (i : nat) (l : list A) : list (nat * A) :=
  match l with
  | [] => []
  | x :: l' => (i, x) :: enumerate_from (S i) l'
  end.

(** [enumerate(l)] *)
Definition enumerate {A} (l : list A) : list (nat * A) := enumerate_from 0 l.

(** [(today - series).dt.days]: whole days, rounded down; a missing
    timestamp gives a missing number. *)
Definition dt_days (today : Z) (s : list (option Z)) : Series :=
  map (fun o => match o with
                | Some t => CNum (inject_Z ((today - t) / day))
                | None => CNaN
                end) s.

(** ** Scoring *)

(** The dict of line 71. *)
Definition payer_risk : gmap string Q :=
  <["Medicare" := 0.2]> (<["Blue Cross" := 0.4]> (<["Aetna" := 0.6]>
  (<["UnitedHealthcare" := 0.5]> ∅))).

(** [calculate_priority(df)]: writes the column [payer_risk] into the
    frame it is given and returns the scores.  The frame after the write
    is returned beside them. *)
Definition calculate_priority (df : DataFrame) : result (DataFrame * Series) :=
  payer_name ← getcol df "payer_name";
  df ← setcol df "payer_risk" (fillna 0.3 (series_map payer_risk payer_name));
  status ← getcol df "status";
  let risk := np_where (series_eq_str status "denied") 1.0 0.5 in
  aging_days ← getcol df "aging_days";
  t ← series_scalar Qdiv aging_days 90;
  t1 ← series_scalar Qmult t 0.4;
  pr ← getcol df "payer_risk";
  t2 ← series_scalar Qmult pr 0.3;
  let t3 := map (fun r => CNum (r * 0.3)) risk in
  s ← series_binop Qplus t1 t2;
  score ← series_binop Qplus s t3;
  mret (df, np_clip score 0 1).

(** The same lines read for one row: [.map(payer_risk).fillna(0.3)] of
    its payer, [np.where] of its status, and the clipped sum for a numeric
    [aging_days]. *)
Definition payer_risk_of (payer_name : cell) : Q :=
  match payer_name with
  | CStr k => default 0.3 (payer_risk !! k)
  | _ => 0.3
  end.

Definition risk_of (status : cell) : Q :=
  if cell_eq_str "denied" status then 1.0 else 0.5.

Definition priority_score (aging_days : Q) (payer_name status : cell) : Q :=
  clip ((aging_days / 90) * 0.4 + payer_risk_of payer_name * 0.3
        + risk_of status * 0.3) 0 1.

(** ** The aging buckets of [pd.cut] *)

(** [pd.cut(x, bins=[0, 30, 60, 90, inf], labels=[...])]: intervals open
    on the left and closed on the right; a value in none of them gets no
    label. *)
Definition cut_aging (x : Q) : cell :=
  if Qle_bool x 0 then CNaN
  else if Qle_bool x 30 then CStr "0-30"
  else if Qle_bool x 60 then CStr "31-60"
  else if Qle_bool x 90 then CStr "61-90"
  else CStr "90+".

Definition pd_cut_aging (s : Series) : result Series :=
  mapM (fun c => match c with
                 | CNum x => Ok (cut_aging x)
                 | CNaN => Ok CNaN
                 | _ => Raise TypeError
                 end) s.

(** [(series * 100).round(0).astype(int)]: the score, a binary64 number,
    is multiplied by 100.0 in binary64 and the product rounded to an
    integer.  A missing value cannot become an integer. *)
Definition percent_of (x : Q) : Z :=
  round_half_even (binary64 (binary64 x * 100)).

Definition percent (s : Series) : result Series :=
  mapM (fun c => match c with
                 | CNum x => Ok (CNum (inject_Z (percent_of x)))
                 | CNaN => Raise ValueError
                 | _ => Raise TypeError
                 end) s.

(** ** Grouping *)

(** Texts in the order of Python's [str], character by character. *)
Definition label_ltb (a b : string) : bool :=
  match String_as_OT.cmp a b with Lt => true | _ => false end.

(** [df.groupby(key)[val].sum()] over a column of text labels: one total
    per label that occurs, rows without a label left out, the totals
    listed by ascending label (the default [sort=True]). *)
Fixpoint add_to_group (k : string) (v : Q) (acc : list (string * Q)) : list (string * Q) :=
  match acc with
  | [] => [(k, v)]
  | (k', t) :: acc' =>
      if bool_decide (k = k') then (k', t + v) :: acc'
      else if label_ltb k k' then (k, v) :: (k', t) :: acc'
      else (k', t) :: add_to_group k v acc'
  end.

Fixpoint group_sums (keys vals : Series) (acc : list (string * Q)) : result (list (string * Q)) :=
  match keys, vals with
  | [], [] => Ok acc
  | k :: keys', v :: vals' =>
      match k, v with
      | CStr k, CNum v => group_sums keys' vals' (add_to_group k v acc)
      | CStr k, CNaN => group_sums keys' vals' (add_to_group k 0 acc)
      | CNaN, (CNum _ | CNaN) => group_sums keys' vals' acc
      | _, _ => Raise TypeError
      end
  | _, _ => Raise ValueError
  end.

Definition groupby_sum (df : DataFrame) (key val : string) : result (list (string * Q)) :=
  keys ← getcol df key;
  vals ← getcol df val;
  group_sums keys vals [].

Section Dashboard.

(** Two library functions whose algorithms are outside the repository.
    - [pd.to_datetime] of a text or a number: [None] when pandas cannot
      read it as a timestamp without a time zone, the only kind that line
      31 can subtract from today's.  pandas converts a column as a whole;
      it is read cell by cell here, which is that conversion for a column
      whose numbers are binary64 numbers and whose texts are written in
      one format.
    - [DataFrame.sort_values(by, ascending=False)], which the script calls
      without [kind], on rows paired with their key. *)
Variable parse_datetime : cell → option Z.
Variable sort_values_descending : list (cell * dict) → list (cell * dict).

(** [pd.to_datetime(series)] *)
Definition to_datetime (s : Series) : result (list (option Z)) :=
  mapM (fun c => match c with
                 | CTime t => Ok (Some t)
                 | CNaN => Ok None
                 | _ => match parse_datetime c with
                        | Some t => Ok (Some t)
                        | None => Raise ValueError
                        end
                 end) s.

(** [df.sort_values(by, ascending=False)] *)
Definition sort_values (df : DataFrame) (by_ : string) : result DataFrame :=
  keys ← getcol df by_;
  mret (mkDataFrame (columns df)
          (map snd (sort_values_descending (zip keys (rows df))))).

(** ** DATA FETCH (Mock + Real) *)

Definition payers : list string :=
  ["Medicare"; "Blue Cross"; "Aetna"; "UnitedHealthcare"].
Definition reasons : list string :=
  ["CO-45: Charge exceeds fee"; "PR-96: Non-covered"; "CO-97: Duplicate";
   "CO-16: Missing info"].
Definition statuses : list string := ["open"; "partial"; "denied"; "paid"].
Definition status_weights : list Q := [0.4; 0.2; 0.3; 0.1].

(** The dict appended for one date of the loop of lines 49 to 61.  The
    draws are made in the order in which Python evaluates the entries. *)
Definition mock_record (i_date : nat * Z) : prog dict :=
  let '(i, date) := i_date in
  patient ← call (np_random_randint 1000 2000);
  payer_name ← call (np_random_choice payers None);
  amount_due ← call (np_random_uniform 100 2000);
  paid_share ← call (np_random_uniform 0 1);
  paid_base ← call (np_random_uniform 100 2000);
  status ← call (np_random_choice statuses (Some status_weights));
  followup ← call (np_random_randint 0 30);
  r ← call np_random_rand;
  denial_reason ←
    (if Qlt_bool 0.7 r
     then reason ← call (np_random_choice reasons None); mret (CStr reason)
     else mret CNaN);
  r' ← call np_random_rand;
  mret (<["invoice_id" := CStr ("INV-" +:+ pretty (Z.of_nat i + 1000)%Z)]>
       (<["patient_id" := CStr ("PT-" +:+ pretty patient)]>
       (<["payer_name" := CStr payer_name]>
       (<["amount_due" := CNum amount_due]>
       (<["amount_paid" := CNum (paid_share * paid_base)]>
       (<["status" := CStr status]>
       (<["due_date" := CTime date]>
       (<["last_followup" := CTime (date - timedelta followup)]>
       (<["denial_reason" := denial_reason]>
       (<["notes" := CStr (if Qlt_bool 0.6 r' then "Follow-up pending" else "")]>
        (∅ : dict))))))))))).

(** Lines 63 to 65, once [pd.to_datetime("today")] has read the clock:
    the derived columns of the mock frame. *)
Definition derive_fields (today : Z) (df : DataFrame) : result DataFrame :=
  due ← getcol df "due_date" ≫= to_datetime;
  df ← setcol df "aging_days" (dt_days today due);
  amount_due ← getcol df "amount_due";
  amount_paid ← getcol df "amount_paid";
  outstanding ← series_binop Qminus amount_due amount_paid;
  df ← setcol df "outstanding" outstanding;
  '(df, score) ← calculate_priority df;
  setcol df "priority_score" score.

(** The branch of [fetch_ar_data] taken without an API key. *)
Definition fetch_mock : prog DataFrame :=
  call (st_show (st_info
    "Demo Mode: Using sample healthcare data. Add NIKO_API_KEY to go live."));;
  end_date_mock ← call datetime_now;
  let start_date_mock := (end_date_mock - timedelta 90)%Z in
  let dates := date_range start_date_mock end_date_mock in
  mock_data ← mapM mock_record (enumerate dates);
  let df := DataFrame_of mock_data in
  today ← call datetime_now;
  lift (derive_fields today df).

(** [response.json().get("data", [])] *)
Definition response_data (body : json_body) : result (list (gmap string json)) :=
  match body with
  | NotJson => Raise JSONDecodeError
  | JsonObject data => Ok (default [] data)
  end.

(** The cells of [pd.DataFrame(data)] are the values of the records.
    pandas gives each column one type, and holds a column of numbers with
    a missing value as binary64: the cells are those numbers when the
    numbers of the records are binary64 numbers, which integers of more
    than 53 bits are not. *)
Definition records_of_json (data : list (gmap string json)) : list dict :=
  map (fmap cell_of_json) data.

(** The branch taken with an API key: one request, everything from the
    request on inside [try]. *)
Definition fetch_real (key : string) (start_date end_date : Z) : prog DataFrame :=
  let headers := [("Authorization", "Bearer " +:+ key)] in
  let params := [("start_date", PDate start_date); ("end_date", PDate end_date);
                 ("limit", PInt 1000)] in
  try_except
    (response ← call (requests_get (API_BASE +:+ "/v2/payments") headers params 20);
     match response with
     | ConnectionFailed msg => Throw (RequestException msg)
     | Response status_code body =>
         if bool_decide (status_code = 200%Z) then
           data ← lift (response_data body);
           let df := DataFrame_of (records_of_json data) in
           today ← call datetime_now;
           due ← lift (getcol df "due_date" ≫= to_datetime);
           df ← lift (setcol df "aging_days" (dt_days today due));
           status ← lift (getcol df "status");
           u ← call (np_random_uniform 0.1 0.8);
           lift (setcol df "denial_risk"
                   (map CNum (np_where (series_eq_str status "denied") 1.0 u)))
         else
           call (st_show (st_error_api status_code));;
           mret DataFrame_empty
     end)
    (fun e =>
       call (st_show (st_error_connection e));;
       mret DataFrame_empty).

(** [fetch_ar_data(start_date, end_date)], on a cache miss. *)
Definition fetch_ar_data (API_KEY : option string) (start_date end_date : Z) : prog DataFrame :=
  match API_KEY with
  | Some key => fetch_real key start_date end_date
  | None => fetch_mock
  end.

(** ** UI: Filters & Load *)

(** Lines 89 and 90: the two selections on the fetched frame. *)
Definition threshold_filter (min_priority : Q) (df : DataFrame) : result DataFrame :=
  score ← getcol df "priority_score";
  mask ← series_ge score min_priority;
  let df := select df mask in
  outstanding ← getcol df "outstanding";
  mask ← series_gt outstanding 0;
  mret (select df mask).

(** ** KEY METRICS *)

Record metrics : Type := mkMetrics {
  total_ar : Q;
  total_accounts : nat;
  avg_dso : cell;
  recovery_potential : Q
}.

(** Lines 94 to 97. *)
Definition key_metrics (df : DataFrame) : result metrics :=
  outstanding ← getcol df "outstanding";
  total_ar ← series_sum outstanding;
  let total_accounts := len df in
  aging_days ← getcol df "aging_days";
  avg_dso ← series_mean aging_days;
  outstanding ← getcol df "outstanding";
  recoverable ← series_scalar Qmult outstanding 0.8;
  recovery_potential ← series_sum recoverable;
  mret (mkMetrics total_ar total_accounts avg_dso recovery_potential).

(** ** PRIORITIZED ACCOUNTS TABLE *)

Definition display_cols : list string :=
  ["invoice_id"; "patient_id"; "payer_name"; "outstanding"; "aging_days";
   "priority_score"; "next_action"; "denial_reason"].

(** Lines 112 to 115: [priority_df], a copy of the ten first rows of the
    sorted frame with three columns written into it. *)
Definition prioritized_accounts (df : DataFrame) : result DataFrame :=
  sorted ← sort_values df "priority_score";
  let priority_df := head 10 sorted in
  score ← getcol priority_df "priority_score";
  pct ← percent score;
  priority_df ← setcol priority_df "priority_score" pct;
  aging_days ← getcol priority_df "aging_days";
  bucket ← pd_cut_aging aging_days;
  priority_df ← setcol priority_df "aging_bucket" bucket;
  aging_days ← getcol priority_df "aging_days";
  late ← series_gt aging_days 60;
  setcol priority_df "next_action"
    (map CStr (np_where late "Escalate to Collector" "Auto-Followup Email")).

(** ** The script from the emptiness check to the aging chart

    Lines 85 to 130, given the slider value and the fetched frame.
    Pictographs of the captions are left out. *)
Definition render (min_priority : Q) (df : DataFrame) : prog unit :=
  (if empty df
   then call (st_show (st_warning "No data in range. Adjust filters."));;
        Throw StopException
   else mret tt);;
  df ← lift (threshold_filter min_priority df);
  m ← lift (key_metrics df);
  call (st_show (st_metric "Total AR" (CNum (total_ar m))));;
  call (st_show (st_metric "Open Accounts"
                   (CNum (inject_Z (Z.of_nat (total_accounts m))))));;
  call (st_show (st_metric "Avg DSO (Days)" (avg_dso m)));;
  call (st_show (st_metric "Recovery Potential" (CNum (recovery_potential m))));;
  call (st_show (st_markdown "---"));;
  call (st_show (st_subheader "High-Priority Accounts (AI-Scored)"));;
  priority_df ← lift (prioritized_accounts df);
  shown ← lift (getcols priority_df display_cols);
  call (st_show (st_dataframe shown));;
  call (st_show (st_subheader "AR Aging Breakdown"));;
  aging_pivot ← lift (groupby_sum df "aging_bucket" "outstanding");
  call (st_show (st_altair_chart aging_pivot)).

(** The slider of line 82 starts at this value. *)
Definition min_priority_default : Q := 0.3.

(** Lines 78 to 130: the sidebar inputs, the fetch, and [render]. *)
Definition dashboard (API_KEY : option string) : prog unit :=
  now ← call datetime_now;
  start_date ← call (st_date_input "Start Date" (now - timedelta 90));
  now ← call datetime_now;
  end_date ← call (st_date_input "End Date" now);
  min_priority ← call (st_slider "Min Priority Score" 0.0 1.0 min_priority_default);
  df ← fetch_ar_data API_KEY start_date end_date;
  render min_priority df.

End Dashboard.

(** ** Concrete instances, for evaluation *)

(** Keys compared as the sort of a descending order does: numbers by
    value, everything else after them. *)
Definition key_geb (a b : cell) : bool :=
  match a, b with
  | CNum x, CNum y => Qle_bool y x
  | CNum _, _ => true
  | _, CNum _ => false
  | _, _ => true
  end.

(** Insertion into a descending list, before the first element that
    [before x] accepts. *)
Fixpoint insert_before {A} (before : A → A → bool) (x : A) (l : list A) : list A :=
  match l with
  | [] => [x]
  | y :: l' => if before x y then x :: y :: l' else y :: insert_before before x l'
  end.

Definition insertion_sort {A} (before : A → A → bool) (l : list A) : list A :=
  foldr (insert_before before) [] l.

(** A descending sort that keeps rows of equal key in their order. *)
Definition sort_stable (l : list (cell * dict)) : list (cell * dict) :=
  insertion_sort (fun x y => key_geb x.1 y.1) l.

(** The sort that line 112 runs when numpy sorts with its portable code:
    [np.argsort(kind="quicksort")] is [aquicksort] of
    [numpy/_core/src/npysort/quicksort.cpp], an introsort over an array
    [tosort] of positions into the keys [v].  Ranges of more than 17
    positions are partitioned around the median of three, the larger part
    being pushed on a stack; the others are sorted by insertion; a range
    reached after more than [2 * floor(log2 num)] partitions is sorted by
    [aheapsort].  Pointers are positions in [tosort]. *)
Section aquicksort.

Variable v : list Q.

Definition key_at (tosort : list nat) (p : nat) : Q := nth (tosort !!! p) v 0.

Definition INTP_SWAP (tosort : list nat) (i j : nat) : list nat :=
  <[j := tosort !!! i]> (<[i := tosort !!! j]> tosort).

(** [do { ++pi; } while (v[*pi] < vp)], entered after the increment. *)
Fixpoint scan_up (fuel : nat) (tosort : list nat) (vp : Q) (pi : nat) : nat :=
  match fuel with
  | O => pi
  | S fuel =>
      if Qlt_bool (key_at tosort pi) vp then scan_up fuel tosort vp (S pi) else pi
  end.

(** [do { --pj; } while (vp < v[*pj])], entered after the decrement. *)
Fixpoint scan_down (fuel : nat) (tosort : list nat) (vp : Q) (pj : nat) : nat :=
  match fuel with
  | O => pj
  | S fuel =>
      if Qlt_bool vp (key_at tosort pj) then scan_down fuel tosort vp (pred pj) else pj
  end.

Fixpoint partition_loop (fuel : nat) (tosort : list nat) (vp : Q) (pi pj : nat)
    : list nat * nat :=
  match fuel with
  | O => (tosort, pi)
  | S fuel =>
      let pi := scan_up (length tosort) tosort vp (S pi) in
      let pj := scan_down (length tosort) tosort vp (pred pj) in
      if (pj <=? pi)%nat then (tosort, pi)
      else partition_loop fuel (INTP_SWAP tosort pi pj) vp pi pj
  end.

(** The two positions are swapped when the key of the first is the
    smaller one. *)
Definition swap_if_less (tosort : list nat) (i j : nat) : list nat :=
  if Qlt_bool (key_at tosort i) (key_at tosort j) then INTP_SWAP tosort i j
  else tosort.

(** One partition of the range from [pl] to [pr]; the result is the
    array with the position [pi] of the pivot. *)
Definition aquicksort_partition (tosort : list nat) (pl pr : nat) : list nat * nat :=
  let pm := (pl + (pr - pl) / 2)%nat in
  let tosort := swap_if_less tosort pm pl in
  let tosort := swap_if_less tosort pr pm in
  let tosort := swap_if_less tosort pm pl in
  let vp := key_at tosort pm in
  let tosort := INTP_SWAP tosort pm (pr - 1) in
  let '(tosort, pi) := partition_loop (length tosort) tosort vp pl (pr - 1) in
  (INTP_SWAP tosort pi (pr - 1), pi).

Definition SMALL_QUICKSORT : nat := 16.

(** [while ((pr - pl) > SMALL_QUICKSORT) { ... }]: the stack holds the
    ranges put aside, each with the depth left to it. *)
Fixpoint partition_while (fuel : nat) (tosort : list nat) (pl pr : nat) (cdepth : Z)
    (stack : list (nat * nat * Z)) : list nat * nat * nat * list (nat * nat * Z) :=
  match fuel with
  | O => (tosort, pl, pr, stack)
  | S fuel =>
      if (SMALL_QUICKSORT <? pr - pl)%nat then
        let '(tosort, pi) := aquicksort_partition tosort pl pr in
        let cdepth := (cdepth - 1)%Z in
        if (pi - pl <? pr - pi)%nat
        then partition_while fuel tosort pl (pi - 1) cdepth
               ((S pi, pr, cdepth) :: stack)
        else partition_while fuel tosort (S pi) pr cdepth
               ((pl, (pi - 1)%nat, cdepth) :: stack)
      else (tosort, pl, pr, stack)
  end.

(** The insertion sort of the range from [pl] to [pr]. *)
Fixpoint shift_up (fuel : nat) (tosort : list nat) (pl : nat) (vp : Q) (pj : nat)
    : list nat * nat :=
  match fuel with
  | O => (tosort, pj)
  | S fuel =>
      if (pl <? pj)%nat && Qlt_bool vp (key_at tosort (pj - 1))
      then shift_up fuel (<[pj := tosort !!! (pj - 1)%nat]> tosort) pl vp (pj - 1)
      else (tosort, pj)
  end.

Definition insert_one (pl : nat) (tosort : list nat) (pi : nat) : list nat :=
  let vi := tosort !!! pi in
  let '(tosort, pj) := shift_up (length tosort) tosort pl (nth vi v 0) pi in
  <[pj := vi]> tosort.

Definition insertion_sort_range (tosort : list nat) (pl pr : nat) : list nat :=
  foldl (insert_one pl) tosort (seq (S pl) (pr - pl)).

(** [aheapsort] of the [n] positions from [pl]; the source counts them
    from 1, so that its [a[i]] is the position [pl + i - 1]. *)
Fixpoint sift (fuel : nat) (tosort : list nat) (pl n : nat) (tmp : nat) (i j : nat)
    : list nat :=
  match fuel with
  | O => <[(pl + i - 1)%nat := tmp]> tosort
  | S fuel =>
      if (j <=? n)%nat then
        let j := if (j <? n)%nat
                      && Qlt_bool (key_at tosort (pl + j - 1)) (key_at tosort (pl + j))
                 then S j else j in
        if Qlt_bool (nth tmp v 0) (key_at tosort (pl + j - 1))
        then sift fuel (<[(pl + i - 1)%nat := tosort !!! (pl + j - 1)%nat]> tosort)
               pl n tmp j (j + j)
        else <[(pl + i - 1)%nat := tmp]> tosort
      else <[(pl + i - 1)%nat := tmp]> tosort
  end.

Definition aheapsort (tosort : list nat) (pl n : nat) : list nat :=
  let tosort :=
    foldl (fun tosort l =>
             sift n tosort pl n (tosort !!! (pl + l - 1)%nat) l (2 * l))
      tosort (reverse (seq 1 (n / 2))) in
  foldl (fun tosort n =>
           let tmp := tosort !!! (pl + n - 1)%nat in
           let tosort := <[(pl + n - 1)%nat := tosort !!! pl]> tosort in
           sift n tosort pl (n - 1) tmp 1 2)
    tosort (reverse (seq 2 (n - 1))).

(** The outer loop: one range per turn, until the stack is empty. *)
Fixpoint aquicksort_loop (fuel : nat) (tosort : list nat) (pl pr : nat) (cdepth : Z)
    (stack : list (nat * nat * Z)) : list nat :=
  match fuel with
  | O => tosort
  | S fuel =>
      let '(tosort, stack) :=
        if (cdepth <? 0)%Z then (aheapsort tosort pl (pr - pl + 1), stack)
        else
          let '(tosort, pl, pr, stack) :=
            partition_while (length tosort) tosort pl pr cdepth stack in
          (insertion_sort_range tosort pl pr, stack) in
      match stack with
      | [] => tosort
      | (pl, pr, cdepth) :: stack => aquicksort_loop fuel tosort pl pr cdepth stack
      end
  end.

(** The position of the highest bit set. *)
Definition npy_get_msb (num : nat) : Z := Z.log2 (Z.of_nat num).

Definition aquicksort (tosort : list nat) : list nat :=
  let num := length tosort in
  aquicksort_loop (S num) tosort 0 (num - 1) (npy_get_msb num * 2) [].

End aquicksort.

(** [np.argsort(v, kind="quicksort")] *)
Definition np_argsort (v : list Q) : list nat := aquicksort v (seq 0 (length v)).

(** pandas' [nargsort(items, kind="quicksort", ascending=False,
    na_position="last")], which [sort_values] calls on the key column: the
    keys that are numbers are sorted in reverse, ascending, and the
    positions found are reversed again; the positions of the other keys
    come last. *)
Definition is_number (c : cell) : bool :=
  match c with CNum _ => true | _ => false end.

Definition nargsort (items : list cell) : list nat :=
  let idx := seq 0 (length items) in
  let mask := map (fun c => negb (is_number c)) items in
  let non_nan_idx := reverse (select_rows idx (map negb mask)) in
  let non_nans :=
    map (fun i => match nth i items CNaN with CNum x => x | _ => 0 end)
      non_nan_idx in
  let indexer := map (fun i => nth i non_nan_idx 0%nat) (np_argsort non_nans) in
  reverse indexer ++ select_rows idx mask.

Definition sort_values_quicksort (l : list (cell * dict)) : list (cell * dict) :=
  map (fun i => nth i l (CNaN, ∅)) (nargsort (map fst l)).

(** A reader of timestamps that accepts numbers only (nanoseconds). *)
Definition parse_epoch (c : cell) : option Z :=
  match c with
  | CNum q => Some (Qnum q / Z.pos (Qden q))%Z
  | _ => None
  end.

(** A handler with a counter as its state.  The clock stands still, every
    draw is taken from the counter, the widgets return [slider] and the
    proposed dates, and the request gets [http]. *)
Definition scripted (http : http_outcome) (slider : Q) : handler nat :=
  fun ev n =>
    (match ev return answer ev with
     | requests_get _ _ _ _ => http
     | datetime_now => 1700000000000000000%Z
     | np_random_randint low high => (low + Z.of_nat n mod (high - low))%Z
     | np_random_choice a _ => nth (n mod length a) a ""%string
     | np_random_uniform low high =>
         low + (high - low) * (inject_Z (Z.of_nat (n mod 10)) / 10)
     | np_random_rand => inject_Z (Z.of_nat (n mod 10)) / 10
     | st_date_input _ value => value
     | st_slider _ _ _ _ => slider
     | st_show _ => tt
     end, S n).

(** * Vocabulary of the properties *)

(** The number in a numeric cell. *)
Definition num_of (c : cell) : Q :=
  match c with CNum q => q | _ => 0 end.

(** The row holds a number under the label. *)
Definition numeric_at (c : string) (r : dict) : Prop :=
  ∃ q, cell_at c r = CNum q.

(** What [calculate_priority] writes into a row. *)
Definition with_payer_risk (r : dict) : dict :=
  <["payer_risk" := CNum (payer_risk_of (cell_at "payer_name" r))]> r.

(** The score [calculate_priority] returns for a row. *)
Definition score_row (r : dict) : cell :=
  CNum (priority_score (num_of (cell_at "aging_days" r))
          (cell_at "payer_name" r) (cell_at "status" r)).

(** A Medicare invoice, open, 100 days past due. *)
Definition sample_row : dict :=
  <["aging_days" := CNum 100]> (<["payer_name" := CStr "Medicare"]>
  (<["status" := CStr "open"]> ∅)).

(** Whether lines 89 and 90 keep a row. *)
Definition kept (min_priority : Q) (r : dict) : bool :=
  Qle_bool min_priority (num_of (cell_at "priority_score" r))
  && Qlt_bool 0 (num_of (cell_at "outstanding" r)).


(** The uniform draws of a run, with their bounds, and its requests. *)
Definition uniform_draws (tr : trace) : list (Q * Q * Q) :=
  omap (fun e : entry =>
          match e with
          | Entry ev x =>
              match ev return answer ev → option (Q * Q * Q) with
              | np_random_uniform low high => fun u => Some (low, high, u)
              | _ => fun _ => None
              end x
          end) tr.

Definition requests (tr : trace) : list event :=
  omap (fun e : entry =>
          match asked e with
          | requests_get _ _ _ _ => Some (asked e)
          | _ => None
          end) tr.

(** The request of line 27. *)
Definition the_request (key : string) (start_date end_date : Z) : event :=
  requests_get (API_BASE +:+ "/v2/payments")
    [("Authorization", "Bearer " +:+ key)]
    [("start_date", PDate start_date); ("end_date", PDate end_date);
     ("limit", PInt 1000)] 20.

(** No operation on frames raises the exception of [st.stop()]. *)
Definition raised {A} (r : result A) : Prop :=
  match r with Raise StopException => False | _ => True end.

(** The timestamp in a timestamp cell. *)
Definition time_of (c : cell) : Z :=
  match c with CTime t => t | _ => 0%Z end.

(** The row holds a timestamp under the label. *)
Definition dated_at (c : string) (r : dict) : Prop :=
  ∃ t, cell_at c r = CTime t.

(** What lines 63 to 65 make of a row. *)
Definition derive (today : Z) (r : dict) : dict :=
  let r1 :=
    <["aging_days" :=
        CNum (inject_Z ((today - time_of (cell_at "due_date" r)) / day))]> r in
  let r2 :=
    <["outstanding" :=
        CNum (num_of (cell_at "amount_due" r) - num_of (cell_at "amount_paid" r))]> r1 in
  <["priority_score" := score_row r2]> (with_payer_risk r2).

(** The answers to the draws of one record. *)
Record draws : Type := mkDraws {
  d_patient : Z;
  d_payer : string;
  d_due : Q;
  d_share : Q;
  d_base : Q;
  d_status : string;
  d_followup : Z;
  d_rand : Q;
  d_reason : string;
  d_rand' : Q
}.

(** The dict [mock_record] builds from them, *)
Definition record_of (i_date : nat * Z) (w : draws) : dict :=
  <["invoice_id" := CStr ("INV-" +:+ pretty (Z.of_nat i_date.1 + 1000)%Z)]>
  (<["patient_id" := CStr ("PT-" +:+ pretty (d_patient w))]>
  (<["payer_name" := CStr (d_payer w)]>
  (<["amount_due" := CNum (d_due w)]>
  (<["amount_paid" := CNum (d_share w * d_base w)]>
  (<["status" := CStr (d_status w)]>
  (<["due_date" := CTime i_date.2]>
  (<["last_followup" := CTime (i_date.2 - timedelta (d_followup w))]>
  (<["denial_reason" :=
       if Qlt_bool 0.7 (d_rand w) then CStr (d_reason w) else CNaN]>
  (<["notes" := CStr (if Qlt_bool 0.6 (d_rand' w) then "Follow-up pending" else "")]>
   (∅ : dict)))))))))).

(** and the events it asks for them, in order. *)
Definition trace_of (w : draws) : trace :=
  [ Entry (np_random_randint 1000 2000) (d_patient w);
    Entry (np_random_choice payers None) (d_payer w);
    Entry (np_random_uniform 100 2000) (d_due w);
    Entry (np_random_uniform 0 1) (d_share w);
    Entry (np_random_uniform 100 2000) (d_base w);
    Entry (np_random_choice statuses (Some status_weights)) (d_status w);
    Entry (np_random_randint 0 30) (d_followup w);
    Entry np_random_rand (d_rand w) ]
  ++ (if Qlt_bool 0.7 (d_rand w)
      then [Entry (np_random_choice reasons None) (d_reason w)] else [])
  ++ [Entry np_random_rand (d_rand' w)].

(** The keys of a mock record. *)
Definition mock_keys : gset string :=
  {[ "invoice_id"; "patient_id"; "payer_name"; "amount_due"; "amount_paid";
     "status"; "due_date"; "last_followup"; "denial_reason"; "notes" ]}.

(** The columns of the mock frame once the fields are derived. *)
Definition mock_columns : gset string :=
  {["priority_score"]} ∪ ({["payer_risk"]} ∪ ({["outstanding"]}
    ∪ ({["aging_days"]} ∪ mock_keys))).

(** The dates of the loop: the 91 timestamps from 90 days before [now] to
    [now], one day apart. *)
Definition window (now : Z) : list Z :=
  map (fun k : nat => (now - timedelta 90 + timedelta (Z.of_nat k))%Z) (seq 0 91).

(** The notice of line 42, without its pictograph. *)
Definition info_demo : ui :=
  st_info "Demo Mode: Using sample healthcare data. Add NIKO_API_KEY to go live.".

(** What a run has shown, and the metrics, warnings and charts in it. *)
Definition shown (tr : trace) : list ui :=
  omap (fun e : entry =>
          match asked e with st_show u => Some u | _ => None end) tr.

Definition metrics_shown (tr : trace) : list (string * cell) :=
  omap (fun u => match u with st_metric l v => Some (l, v) | _ => None end)
    (shown tr).

Definition warnings_shown (tr : trace) : list string :=
  omap (fun u => match u with st_warning m => Some m | _ => None end)
    (shown tr).

Definition charts_shown (tr : trace) : list (list (string * Q)) :=
  omap (fun u => match u with st_altair_chart d => Some d | _ => None end)
    (shown tr).

(** The step shows no chart. *)
Definition no_chart (e : entry) : Prop :=
  match asked e with
  | st_show (st_altair_chart _) => False
  | _ => True
  end.

(** A payments response with one record, as the API documents them. *)
Definition api_record : gmap string json :=
  <["due_date" := JNum 1699000000000000000]> (<["status" := JStr "open"]>
  (<["payer_name" := JStr "Aetna"]> (<["amount_due" := JNum 500]>
  (<["amount_paid" := JNum 100]> ∅)))).

(** The response with that one record. *)
Definition api_ok : http_outcome :=
  Response 200 (JsonObject (Some [api_record])).

(** A response with three records: open, denied, partial. *)
Definition api_three : http_outcome :=
  Response 200
    (JsonObject (Some [api_record; <["status" := JStr "denied"]> api_record;
                       <["status" := JStr "partial"]> api_record])).

(** The keys of the records of a response. *)
Definition api_keys (resp : http_outcome) : gset string :=
  match resp with
  | Response _ (JsonObject data) =>
      columns (DataFrame_of (records_of_json (default [] data)))
  | _ => ∅
  end.

(** What pandas promises of [sort_values(by, ascending=False)] with the
    default [kind] on numeric keys: the rows are rearranged so that the
    keys do not increase.  Nothing is promised about rows of equal key. *)
Definition descending (x y : cell * dict) : Prop :=
  num_of y.1 <= num_of x.1.

(** The key paired with a row is a number. *)
Definition numeric_key (x : cell * dict) : Prop := ∃ q, x.1 = CNum q.

Definition sorts_descending (sort : list (cell * dict) → list (cell * dict)) : Prop :=
  ∀ l, Forall numeric_key l → sort l ≡ₚ l ∧ StronglySorted descending (sort l).

(** What lines 113 to 115 make of a row of [priority_df]. *)
Definition top_row (r : dict) : dict :=
  let score := num_of (cell_at "priority_score" r) in
  let aging_days := num_of (cell_at "aging_days" r) in
  <["next_action" :=
      CStr (if Qlt_bool 60 aging_days
            then "Escalate to Collector" else "Auto-Followup Email")]>
  (<["aging_bucket" := cut_aging aging_days]>
  (<["priority_score" := CNum (inject_Z (percent_of score))]> r)).

(** The rows of [df] in the order [sort_values] gives them. *)
Definition sorted_rows (sort : list (cell * dict) → list (cell * dict))
    (df : DataFrame) : list dict :=
  map snd (sort (map (fun r => (cell_at "priority_score" r, r)) (rows df))).

(** Rows by descending score. *)
Definition by_score (r r' : dict) : Prop :=
  num_of (cell_at "priority_score" r') <= num_of (cell_at "priority_score" r).

(** An invoice with the three fields the selection reads. *)
Definition tie_row (invoice_id : string) (score aging_days : Q) : dict :=
  <["invoice_id" := CStr invoice_id]> (<["priority_score" := CNum score]>
  (<["aging_days" := CNum aging_days]> ∅)).

(** Two invoices of equal score. *)
Definition tie_frame : DataFrame :=
  DataFrame_of [tie_row "INV-1000" 0.5 70; tie_row "INV-1001" 0.5 10].

(** Twenty-four invoices, numbered as the mock ones are; ten of them have
    the highest score, 0.9. *)
Definition tie_score (i : nat) : Q :=
  match (i mod 5)%nat with
  | 0%nat | 2%nat => 0.9
  | 1%nat => 0.5
  | 3%nat => 0.7
  | _ => 0.2
  end.

Definition tie_invoices : DataFrame :=
  DataFrame_of
    (map (fun i => tie_row ("INV-" +:+ pretty (i + 1000)%nat) (tie_score i)
                     (inject_Z (Z.of_nat i)))
       (seq 0 24)).

(** The invoice numbers of a frame. *)
Definition invoice_ids (df : DataFrame) : list cell :=
  map (cell_at "invoice_id") (rows df).

(** A frame of one record. *)
Definition one_record (aging_days : Q) (payer_name status : cell) : DataFrame :=
  DataFrame_of
    [<["aging_days" := CNum aging_days]> (<["payer_name" := payer_name]>
     (<["status" := status]> ∅))].

(** * The blocks after the aging chart *)

(** ** Predictive alerts *)

(** Line 144: [df[(df["priority_score"] > 0.7) & (df["aging_days"] > 45)]].
    Both masks are computed before the selection. *)
Definition high_risk (df : DataFrame) : result DataFrame :=
  score ← getcol df "priority_score";
  risky ← series_gt score 0.7;
  aging_days ← getcol df "aging_days";
  old ← series_gt aging_days 45;
  mret (select df (zip_with andb risky old)).

(** Lines 145 and 146: the rows that get an alert card, none when
    [high_risk] is empty. *)
Definition alert_rows (df : DataFrame) : result (list dict) :=
  high_risk ← high_risk df;
  mret (if empty high_risk then [] else rows (head 5 high_risk)).

(** * Vocabulary of the further properties *)

(** What [pd.to_datetime] makes of one cell of a frame of API records:
    nothing for a missing value, the reading of the parser otherwise. *)
Definition due_of (parse : cell → option Z) (c : cell) : option Z :=
  match c with
  | CTime t => Some t
  | CNaN => None
  | _ => parse c
  end.

(** The cell can be read as a timestamp, or is missing. *)
Definition readable (parse : cell → option Z) (c : cell) : Prop :=
  c = CNaN ∨ ∃ t, due_of parse c = Some t.

(** What lines 31 and 32 make of an API record, for a clock reading and
    the value of the uniform draw. *)
Definition real_row (parse : cell → option Z) (today : Z) (u : Q) (r : dict) : dict :=
  <["denial_risk" :=
      CNum (if cell_eq_str "denied" (cell_at "status" r) then 1.0 else u)]>
  (<["aging_days" :=
       match due_of parse (cell_at "due_date" r) with
       | Some t => CNum (inject_Z ((today - t) / day))
       | None => CNaN
       end]> r).

(** Three invoices with all the fields the script reads after the fetch:
    two of equal score, one below the default threshold. *)
Definition full_row (invoice_id : string) (score aging_days outstanding : Q) : dict :=
  <["invoice_id" := CStr invoice_id]> (<["patient_id" := CStr "PT-1"]>
  (<["payer_name" := CStr "Aetna"]> (<["denial_reason" := CNaN]>
  (<["priority_score" := CNum score]> (<["aging_days" := CNum aging_days]>
  (<["outstanding" := CNum outstanding]> ∅)))))).

Definition tie_frame_outstanding : DataFrame :=
  DataFrame_of [full_row "INV-1000" 0.75 70 400; full_row "INV-1001" 0.75 10 250;
                full_row "INV-1002" 0.25 50 100].

(** The handler fails every request or answers it with a status other
    than 200. *)
Definition refuses {S} (h : handler S) : Prop :=
  ∀ url headers params timeout s,
    match (h (requests_get url headers params timeout) s).1 with
    | ConnectionFailed _ => True
    | Response status_code _ => status_code ≠ 200%Z
    end.

(** The handler answers every request with the same response. *)
Definition answers_with {S} (h : handler S) (resp : http_outcome) : Prop :=
  ∀ url headers params timeout s,
    (h (requests_get url headers params timeout) s).1 = resp.

(** The errors among what a run has shown. *)
Definition is_error (u : ui) : bool :=
  match u with
  | st_error_api _ | st_error_connection _ => true
  | _ => false
  end.

(** Whether line 144 keeps a row. *)
Definition alerted (r : dict) : bool :=
  Qlt_bool 0.7 (num_of (cell_at "priority_score" r))
  && Qlt_bool 45 (num_of (cell_at "aging_days" r)).

(** The numbers of the records are binary64 numbers. *)
Definition binary64_number (j : json) : bool :=
  match j with
  | JNum q => Qeq_bool (binary64 q) q
  | _ => true
  end.

Definition binary64_records (data : list (gmap string json)) : Prop :=
  Forall (map_Forall (fun _ j => binary64_number j = true)) data.




(** * Properties *)

#[local] Set Warnings "-clear-no-such-hyp".

Ltac solve_elem := apply (bool_decide_unpack _); vm_compute; exact I.

(** ** Rationals *)

Lemma Qle_bool_cases (x y : Q) :
  (Qle_bool x y = true ∧ x <= y) ∨ (Qle_bool x y = false ∧ y < x).
Proof.
  destruct (Qle_bool x y) eqn:E.
  - left. split; [done | by apply Qle_bool_iff].
  - right. split; [done |]. apply Qnot_le_lt. intros H.
    apply Qle_bool_iff in H. congruence.
Qed.

Ltac case_Qle x y :=
  let E := fresh "E" in
  destruct (Qle_bool_cases x y) as [[E ?] | [E ?]]; rewrite ?E in *.

Lemma clip_bounds (x lo hi : Q) :
  lo <= hi → lo <= clip x lo hi ∧ clip x lo hi <= hi.
Proof.
  intros Hlh. unfold clip, Qminimum, Qmaximum.
  case_Qle x lo; [case_Qle lo hi | case_Qle x hi]; split; lra.
Qed.

Lemma clip_mono (x y lo hi : Q) : x <= y → clip x lo hi <= clip y lo hi.
Proof.
  intros Hxy. unfold clip, Qminimum, Qmaximum.
  case_Qle x lo; case_Qle y lo;
    repeat match goal with
           | |- context [Qle_bool ?a ?b] => case_Qle a b
           end; lra.
Qed.

Lemma clip_unit (x : Q) :
  (x < 0 → clip x 0 1 == 0) ∧ (0 <= x <= 1 → clip x 0 1 == x)
  ∧ (1 < x → clip x 0 1 == 1).
Proof.
  unfold clip, Qminimum, Qmaximum.
  case_Qle x 0; [case_Qle 0 1 | case_Qle x 1]; repeat split; intros; lra.
Qed.

(** ** Results and lists *)

Lemma result_bind_Ok {A B} (r : result A) (f : A → result B) (b : B) :
  r ≫= f = Ok b ↔ ∃ a, r = Ok a ∧ f a = Ok b.
Proof.
  destruct r as [a|e]; simpl; split.
  - eauto.
  - by intros (a' & [= <-] & ?).
  - done.
  - by intros (? & ? & ?).
Qed.

Lemma series_binop_map {A} (f : Q → Q → Q) (g1 g2 g : A → cell) (l : list A) :
  Forall (fun x => cell_binop f (g1 x) (g2 x) = Ok (g x)) l →
  series_binop f (map g1 l) (map g2 l) = Ok (map g l).
Proof.
  induction 1 as [|x l Hx _ IH]; [done |].
  cbn. rewrite Hx. cbn. by rewrite IH.
Qed.

Lemma zip_with_map_same {A B C} (f : A → B → C) (g : A → B) (l : list A) :
  zip_with f l (map g l) = map (fun x => f x (g x)) l.
Proof. induction l as [|x l IH]; [done |]. cbn. by rewrite IH. Qed.

(** ** Frames *)

Lemma getcol_in (df : DataFrame) (c : string) :
  c ∈ columns df → getcol df c = Ok (map (cell_at c) (rows df)).
Proof. intros H. unfold getcol. by rewrite bool_decide_eq_true_2. Qed.

Lemma getcol_notin (df : DataFrame) (c : string) :
  c ∉ columns df → getcol df c = Raise (KeyError c).
Proof. intros H. unfold getcol. by rewrite bool_decide_eq_false_2. Qed.

Lemma setcol_map (df : DataFrame) (c : string) (g : dict → cell) :
  setcol df c (map g (rows df))
  = Ok (mkDataFrame ({[c]} ∪ columns df)
          (map (fun r => <[c := g r]> r) (rows df))).
Proof.
  unfold setcol. rewrite bool_decide_eq_true_2 by by rewrite length_map.
  by rewrite zip_with_map_same.
Qed.

Lemma cell_at_insert (c : string) (v : cell) (r : dict) :
  cell_at c (<[c := v]> r) = v.
Proof. unfold cell_at. by rewrite lookup_insert_eq. Qed.

Lemma cell_at_insert_ne (c c' : string) (v : cell) (r : dict) :
  c ≠ c' → cell_at c' (<[c := v]> r) = cell_at c' r.
Proof. intros H. unfold cell_at. by rewrite lookup_insert_ne. Qed.

Lemma mapM_map_Ok {A B C} (f : B → result C) (g1 : A → B) (g : A → C) (l : list A) :
  Forall (fun x => f (g1 x) = Ok (g x)) l → mapM f (map g1 l) = Ok (map g l).
Proof.
  induction 1 as [|x l Hx _ IH]; [done |].
  cbn. rewrite Hx. cbn. by rewrite IH.
Qed.

(** ** Scoring, row by row *)

Lemma calculate_priority_rows (df : DataFrame) :
  "payer_name" ∈ columns df → "status" ∈ columns df →
  "aging_days" ∈ columns df →
  Forall (numeric_at "aging_days") (rows df) →
  calculate_priority df
  = Ok (mkDataFrame ({["payer_risk"]} ∪ columns df)
          (map with_payer_risk (rows df)),
        map score_row (rows df)).
Proof.
  intros Hp Hs Ha Hnum. unfold calculate_priority.
  rewrite getcol_in by done. cbn [mbind result_bind].
  assert (fillna 0.3 (series_map payer_risk (map (cell_at "payer_name") (rows df)))
          = map (fun r => CNum (payer_risk_of (cell_at "payer_name" r))) (rows df))
    as ->.
  { unfold fillna, series_map. rewrite !map_map. apply map_ext. intros r.
    unfold payer_risk_of. destruct (cell_at "payer_name" r); try done.
    by destruct (payer_risk !! s). }
  rewrite setcol_map. cbn [mbind result_bind].
  fold with_payer_risk.
  set (df1 := mkDataFrame _ _).
  assert (∀ c, c ≠ "payer_risk" → c ∈ columns df →
               getcol df1 c = Ok (map (cell_at c) (rows df))) as Hget.
  { intros c Hc Hin. rewrite getcol_in by (subst df1; cbn; set_solver).
    subst df1; cbn. rewrite map_map. f_equal. apply map_ext. intros r.
    unfold with_payer_risk. by rewrite cell_at_insert_ne. }
  assert (getcol df1 "payer_risk"
          = Ok (map (fun r => CNum (payer_risk_of (cell_at "payer_name" r))) (rows df)))
    as Hpr.
  { rewrite getcol_in by (subst df1; cbn; set_solver).
    subst df1; cbn. rewrite map_map. f_equal. apply map_ext. intros r.
    unfold with_payer_risk. by rewrite cell_at_insert. }
  rewrite (Hget "status"), (Hget "aging_days") by done.
  cbn [mbind result_bind]. unfold series_scalar.
  rewrite (mapM_map_Ok _ _ (fun r => CNum (num_of (cell_at "aging_days" r) / 90))).
  2:{ eapply Forall_impl; [exact Hnum |]. intros r [q Hq]. by rewrite Hq. }
  cbn [mbind result_bind].
  rewrite (mapM_map_Ok _ _ (fun r => CNum (num_of (cell_at "aging_days" r) / 90 * 0.4)));
    [| by apply Forall_forall].
  cbn [mbind result_bind]. rewrite Hpr. cbn [mbind result_bind].
  rewrite (mapM_map_Ok _ _
             (fun r => CNum (payer_risk_of (cell_at "payer_name" r) * 0.3)));
    [| by apply Forall_forall].
  cbn [mbind result_bind].
  rewrite (series_binop_map _ _ _
             (fun r => CNum (num_of (cell_at "aging_days" r) / 90 * 0.4
                             + payer_risk_of (cell_at "payer_name" r) * 0.3)));
    [| by apply Forall_forall].
  cbn [mbind result_bind].
  unfold np_where, series_eq_str. rewrite !map_map.
  rewrite (series_binop_map _ _ _
             (fun r => CNum (num_of (cell_at "aging_days" r) / 90 * 0.4
                             + payer_risk_of (cell_at "payer_name" r) * 0.3
                             + risk_of (cell_at "status" r) * 0.3)));
    [| by apply Forall_forall].
  cbn [mbind result_bind mret result_ret]. unfold np_clip. by rewrite map_map.
Qed.

Lemma payer_risk_lookup (p : string) :
  payer_risk_of (CStr p)
  = if bool_decide (p = "Medicare") then 0.2
    else if bool_decide (p = "Blue Cross") then 0.4
    else if bool_decide (p = "Aetna") then 0.6
    else if bool_decide (p = "UnitedHealthcare") then 0.5
    else 0.3.
Proof.
  unfold payer_risk_of, payer_risk.
  repeat (case_bool_decide; [subst; by simplify_map_eq |]).
  by simplify_map_eq.
Qed.

Lemma Qdiv_90 (a : Q) : a / 90 == a * (1 # 90).
Proof. reflexivity. Qed.

(** C1.  For every record of a frame whose [aging_days] are numbers,
    [calculate_priority] returns the score
    clamp (0.4 * (aging_days / 90) + 0.3 * payer_risk + 0.3 * risk_boost)
    where risk_boost is 1.0 for the status "denied" and 0.5 otherwise,
    payer_risk is 0.2, 0.4, 0.6, 0.5 for Medicare, Blue Cross, Aetna,
    UnitedHealthcare and 0.3 for any other payer, and the one clamp, made
    on the sum, is to the interval from 0 to 1; so the score lies in that
    interval. *)
Theorem priority_score_formula (df : DataFrame) :
  "payer_name" ∈ columns df → "status" ∈ columns df →
  "aging_days" ∈ columns df →
  Forall (numeric_at "aging_days") (rows df) →
  ∃ df' score,
    calculate_priority df = Ok (df', score) ∧
    length score = length (rows df) ∧
    ∀ (i : nat) (r : dict) (a : Q) (p st : string),
      rows df !! i = Some r →
      cell_at "aging_days" r = CNum a →
      cell_at "payer_name" r = CStr p →
      cell_at "status" r = CStr st →
      let risk_boost := if bool_decide (st = "denied") then 1.0 else 0.5 in
      let payer :=
        if bool_decide (p = "Medicare") then 0.2
        else if bool_decide (p = "Blue Cross") then 0.4
        else if bool_decide (p = "Aetna") then 0.6
        else if bool_decide (p = "UnitedHealthcare") then 0.5
        else 0.3 in
      let total := 0.4 * (a / 90) + 0.3 * payer + 0.3 * risk_boost in
      ∃ v, score !! i = Some (CNum v) ∧
           (total < 0 → v == 0) ∧
           (0 <= total <= 1 → v == total) ∧
           (1 < total → v == 1) ∧
           0 <= v <= 1.
Proof.
  intros Hp Hs Ha Hnum.
  eexists _, _. split; [by apply calculate_priority_rows |].
  split; [by rewrite length_map |].
  intros i r a p st Hr Hage Hpayer Hst risk_boost payer total.
  eexists. split.
  { rewrite list_lookup_fmap, Hr. reflexivity. }
  rewrite Hage, Hpayer, Hst. cbn [num_of]. unfold priority_score.
  rewrite payer_risk_lookup. fold payer.
  unfold risk_of. cbn [cell_eq_str]. fold risk_boost.
  set (x := a / 90 * 0.4 + payer * 0.3 + risk_boost * 0.3).
  assert (x == total) as Hx by (subst x total; ring).
  destruct (clip_unit x) as (H0 & H01 & H1).
  destruct (clip_bounds x 0 1) as [? ?]; [lra |].
  split; [intros; rewrite H0; lra |].
  split; [intros; rewrite H01; lra |].
  split; [intros; rewrite H1; lra |].
  done.
Qed.

(** C9.  For two records that differ in [aging_days] only, the one with
    the larger [aging_days] does not get the smaller score from
    [calculate_priority]. *)
Theorem priority_score_monotone (a1 a2 : Q) (payer_name status : cell) :
  a1 <= a2 →
  ∃ (df1 df2 : DataFrame) (s1 s2 : Q),
    calculate_priority (one_record a1 payer_name status) = Ok (df1, [CNum s1]) ∧
    calculate_priority (one_record a2 payer_name status) = Ok (df2, [CNum s2]) ∧
    s1 <= s2.
Proof.
  intros H.
  assert (∀ a, ∃ df,
             calculate_priority (one_record a payer_name status)
             = Ok (df, [CNum (priority_score a payer_name status)])) as Hone.
  { intros a. eexists. rewrite calculate_priority_rows; [reflexivity | ..].
    - solve_elem.
    - solve_elem.
    - solve_elem.
    - repeat constructor. by exists a. }
  destruct (Hone a1) as [df1 H1]. destruct (Hone a2) as [df2 H2].
  exists df1, df2. eexists _, _. split; [exact H1 |]. split; [exact H2 |].
  unfold priority_score. apply clip_mono. rewrite !Qdiv_90. lra.
Qed.

Lemma priority_score_formula_witness :
  ∃ df' score,
    calculate_priority (DataFrame_of [sample_row]) = Ok (df', score) ∧
    ∃ v, score !! 0%nat = Some (CNum v) ∧ v == 589 # 900.
Proof.
  destruct (priority_score_formula (DataFrame_of [sample_row]))
    as (df' & score & Hrun & _ & Hrow).
  - solve_elem.
  - solve_elem.
  - solve_elem.
  - repeat constructor. by exists 100.
  - exists df', score. split; [exact Hrun |].
    destruct (Hrow 0%nat sample_row 100 "Medicare"%string "open"%string)
      as (v & Hv & _ & H1 & _ & _); try reflexivity.
    exists v. split; [exact Hv |]. rewrite H1; [reflexivity |].
    split; vm_compute; discriminate.
Defined.

Lemma priority_score_monotone_witness :
  ∃ (df1 df2 : DataFrame) (s1 s2 : Q),
    calculate_priority (one_record 10 (CStr "Medicare") (CStr "open"))
    = Ok (df1, [CNum s1]) ∧
    calculate_priority (one_record 40 (CStr "Medicare") (CStr "open"))
    = Ok (df2, [CNum s2]) ∧
    s1 <= s2.
Proof.
  apply (priority_score_monotone 10 40 (CStr "Medicare") (CStr "open")).
  vm_compute. discriminate.
Defined.

(** ** The threshold filter *)

Lemma select_rows_map {A} (f : A → bool) (l : list A) :
  select_rows l (map f l) = List.filter f l.
Proof. induction l as [|x l IH]; [done |]. cbn. rewrite IH. done. Qed.

Lemma filter_filter_andb {A} (f g : A → bool) (l : list A) :
  List.filter g (List.filter f l) = List.filter (fun x => f x && g x) l.
Proof.
  induction l as [|x l IH]; [done |]. cbn.
  destruct (f x); cbn; [destruct (g x) |]; by rewrite IH.
Qed.

Lemma Forall_filter_bool {A} (P : A → Prop) (f : A → bool) (l : list A) :
  Forall P l → Forall P (List.filter f l).
Proof.
  induction 1 as [|x l Hx _ IH]; [constructor |].
  cbn. destruct (f x); [by constructor | done].
Qed.

Lemma select_map (cols : gset string) (l : list dict) (f : dict → bool) :
  select (mkDataFrame cols l) (map f l) = mkDataFrame cols (List.filter f l).
Proof. unfold select. cbn. by rewrite select_rows_map. Qed.

Lemma threshold_filter_rows (min_priority : Q) (df : DataFrame) :
  "priority_score" ∈ columns df → "outstanding" ∈ columns df →
  Forall (numeric_at "priority_score") (rows df) →
  Forall (numeric_at "outstanding") (rows df) →
  threshold_filter min_priority df
  = Ok (mkDataFrame (columns df) (List.filter (kept min_priority) (rows df))).
Proof.
  destruct df as [cols l]. cbn [rows columns].
  intros Hp Ho Hnp Hno. unfold threshold_filter.
  rewrite getcol_in by done. cbn [mbind result_bind rows]. unfold series_ge.
  rewrite (mapM_map_Ok _ _
             (fun r => Qle_bool min_priority (num_of (cell_at "priority_score" r)))).
  2:{ eapply Forall_impl; [exact Hnp |]. intros r [q Hq]. by rewrite Hq. }
  cbn [mbind result_bind]. rewrite select_map.
  rewrite getcol_in by done. cbn [mbind result_bind rows]. unfold series_gt.
  rewrite (mapM_map_Ok _ _ (fun r => Qlt_bool 0 (num_of (cell_at "outstanding" r)))).
  2:{ apply Forall_filter_bool. eapply Forall_impl; [exact Hno |].
      intros r [q Hq]. by rewrite Hq. }
  cbn [mbind result_bind mret result_ret].
  by rewrite select_map, filter_filter_andb.
Qed.




(** ** Runs *)

Lemma run_bind {S A B} (h : handler S) (p : prog A) (f : A → prog B) (s : S) :
  run h (p ≫= f) s
  = match run h p s with
    | (Ok a, s1, t1) =>
        let '(r, s2, t2) := run h (f a) s1 in (r, s2, t1 ++ t2)
    | (Raise e, s1, t1) => (Raise e, s1, t1)
    end.
Proof.
  revert s. induction p as [a|e|ev k IH]; intros s; cbn.
  - by destruct (run h (f a) s) as [[r s2] t2].
  - done.
  - destruct (h ev s) as [x s1]. specialize (IH x s1).
    unfold mbind, prog_bind in IH. rewrite IH.
    destruct (run h (k x) s1) as [[[a|e] s2] t1]; [| done].
    by destruct (run h (f a) s2) as [[r s3] t2].
Qed.

Lemma run_try_except {S A} (h : handler S) (p : prog A) (k : exn → prog A) (s : S) :
  run h (try_except p k) s
  = match run h p s with
    | (Ok a, s1, t1) => (Ok a, s1, t1)
    | (Raise StopException, s1, t1) => (Raise StopException, s1, t1)
    | (Raise e, s1, t1) =>
        let '(r, s2, t2) := run h (k e) s1 in (r, s2, t1 ++ t2)
    end.
Proof.
  revert s. induction p as [a|e|ev k' IH]; intros s; cbn.
  - done.
  - destruct e; cbn; try done;
      by destruct (run h (k _) s) as [[r s2] t2].
  - destruct (h ev s) as [x s1]. rewrite IH.
    destruct (run h (k' x) s1) as [[[a|e] s2] t1]; [done |].
    destruct e; try done; by destruct (run h (k _) s2) as [[r s3] t2].
Qed.

Lemma run_call {S} (h : handler S) (ev : event) (s : S) :
  run h (call ev) s = (Ok (h ev s).1, (h ev s).2, [Entry ev (h ev s).1]).
Proof. cbn. by destruct (h ev s). Qed.

Lemma run_lift {S A} (h : handler S) (r : result A) (s : S) :
  run h (lift r) s = (r, s, []).
Proof. by destruct r. Qed.

Lemma run_show {S} (h : handler S) (u : ui) (s : S) :
  run h (call (st_show u)) s = (Ok tt, (h (st_show u) s).2, [Entry (st_show u) tt]).
Proof. rewrite run_call. by destruct (h (st_show u) s) as [[] ?]. Qed.

(** ** The fetch with an API key *)

Ltac run_call x s' :=
  match goal with
  | |- context [run ?h (call ?ev) ?s] =>
      change (run h (call ev) s)
        with (let '(x, s1) := h ev s in (Ok x, s1, [Entry ev x]));
      destruct (h ev s) as [x s']
  end.

Lemma raised_bind {A B} (r : result A) (f : A → result B) :
  raised r → (∀ a, raised (f a)) → raised (r ≫= f).
Proof. destruct r; cbn; auto. Qed.

Lemma raised_mapM {A B} (f : A → result B) (l : list A) :
  (∀ x, raised (f x)) → raised (mapM f l).
Proof.
  intros Hf. induction l as [|x l IH]; [done |]. cbn.
  apply raised_bind; [done |]. intros y.
  apply raised_bind; [done |]. done.
Qed.

Lemma raised_getcol df c : raised (getcol df c).
Proof. unfold getcol. by case_bool_decide. Qed.

Lemma raised_setcol df c s : raised (setcol df c s).
Proof. unfold setcol. by case_bool_decide. Qed.

Lemma raised_to_datetime parse s : raised (to_datetime parse s).
Proof.
  apply raised_mapM. intros []; try done; cbn; by destruct (parse _).
Qed.

(** What the handler of the [try] does with an exception. *)
Lemma run_handler {S} (h : handler S) (e : exn) (s : S) :
  run h (call (st_show (st_error_connection e));; mret DataFrame_empty) s
  = (Ok DataFrame_empty, (h (st_show (st_error_connection e)) s).2,
     [Entry (st_show (st_error_connection e)) tt]).
Proof. rewrite run_bind, run_show. done. Qed.

Lemma fetch_real_run {S} (h : handler S) (parse : cell → option Z)
    (key : string) (sd ed : Z) (s : S) :
  let req := the_request key sd ed in
  ∃ df s' tr,
    run h (fetch_real parse key sd ed) s = (Ok df, s', Entry req (h req s).1 :: tr) ∧
    requests tr = [] ∧
    ((df = DataFrame_empty ∧ uniform_draws tr = [])
     ∨ ∃ data today due u,
         let df0 := DataFrame_of (records_of_json (default [] data)) in
         (h req s).1 = Response 200 (JsonObject data) ∧
         getcol df0 "due_date" ≫= to_datetime parse = Ok due ∧
         "status" ∈ columns df0 ∧
         tr = [Entry datetime_now today; Entry (np_random_uniform 0.1 0.8) u] ∧
         df = mkDataFrame ({["denial_risk"]} ∪ ({["aging_days"]} ∪ columns df0))
                (map (fun r => <["denial_risk" :=
                        CNum (if cell_eq_str "denied" (cell_at "status" r)
                              then 1.0 else u)]> r)
                   (zip_with (fun (r : dict) v => <["aging_days" := v]> r)
                      (rows df0) (dt_days today due)))).
Proof.
  intros req. unfold fetch_real. rewrite run_try_except, run_bind.
  fold (the_request key sd ed). fold req.
  run_call resp s1. cbn [fst snd].
  destruct resp as [msg | code body].
  { cbn [run]. rewrite run_handler. eexists _, _, _. split; [done |].
    split; [done |]. by left. }
  case_bool_decide as Hcode.
  2:{ rewrite run_bind, run_show. cbn. eexists _, _, _. split; [done |].
      split; [done |]. by left. }
  subst code. rewrite run_bind, run_lift.
  destruct body as [| data]; cbn [response_data].
  { rewrite run_handler. eexists _, _, _. split; [done |].
    split; [done |]. by left. }
  rewrite run_bind. run_call today s2.
  rewrite run_bind, run_lift.
  set (df0 := DataFrame_of (records_of_json (default [] data))).
  pose proof (raised_bind (getcol df0 "due_date") (to_datetime parse)
                (raised_getcol _ _) (raised_to_datetime parse)) as Hr.
  destruct (getcol df0 "due_date" ≫= to_datetime parse) as [due|e] eqn:Hdue.
  2:{ destruct e; try done; rewrite run_handler;
        (eexists _, _, _; split; [done |]; split; [done |]; by left). }
  clear Hr. rewrite run_bind, run_lift.
  pose proof (raised_setcol df0 "aging_days" (dt_days today due)) as Hr.
  destruct (setcol df0 "aging_days" (dt_days today due)) as [df1|e] eqn:Hset.
  2:{ destruct e; try done; rewrite run_handler;
        (eexists _, _, _; split; [done |]; split; [done |]; by left). }
  clear Hr. rewrite run_bind, run_lift.
  pose proof (raised_getcol df1 "status") as Hr.
  destruct (getcol df1 "status") as [status|e] eqn:Hst.
  2:{ destruct e; try done; rewrite run_handler;
        (eexists _, _, _; split; [done |]; split; [done |]; by left). }
  clear Hr. rewrite run_bind. run_call u s3. rewrite run_lift.
  unfold getcol in Hst. case_bool_decide as Hin; [| done].
  injection Hst as <-. unfold np_where, series_eq_str. rewrite !map_map.
  rewrite setcol_map.
  unfold setcol in Hset. case_bool_decide as Hlen; [| done].
  injection Hset as <-. cbn [rows columns] in Hin |- *.
  eexists _, _, _. split; [done |]. split; [done |]. right.
  exists data, today, due, u. cbn zeta. split; [done |]. split; [done |].
  split; [| done].
  apply elem_of_union in Hin as [Hin | Hin]; [| done].
  by apply elem_of_singleton in Hin.
Qed.

(** C7.  With an API key, when the request fails or its response is not
    a 2xx one, the fetch raises nothing and returns the empty frame; it
    has made the one request of line 27, with a timeout of 20 seconds, and
    shown one error. *)
Theorem fetch_failure_gives_empty_table {S} (h : handler S)
    (parse : cell → option Z) (key : string) (sd ed : Z) (s : S) :
  let req :=
    requests_get "https://api.nikohealth.com/v2/payments"
      [("Authorization", "Bearer " +:+ key)]
      [("start_date", PDate sd); ("end_date", PDate ed); ("limit", PInt 1000)]
      20 in
  (∃ msg, (h req s).1 = ConnectionFailed msg)
  ∨ (∃ code body, (h req s).1 = Response code body ∧ ¬ (200 ≤ code < 300)%Z) →
  ∃ s' u,
    run h (fetch_ar_data parse (Some key) sd ed) s
    = (Ok DataFrame_empty, s', [Entry req (h req s).1; Entry (st_show u) tt]).
Proof.
  intros req Hfail. cbn [fetch_ar_data]. unfold fetch_real.
  rewrite run_try_except, run_bind. change (requests_get _ _ _ _) with req.
  run_call resp s1. cbn [fst snd] in *.
  destruct Hfail as [[msg ->] | (code & body & -> & Hcode)].
  - cbn [run]. rewrite run_handler. by eexists _, _.
  - rewrite bool_decide_eq_false_2 by lia.
    rewrite run_bind, run_show. by eexists _, _.
Qed.

Lemma fetch_failure_gives_empty_table_witness :
  ∃ s' u,
    run (scripted (Response 503 NotJson) 0.3)
      (fetch_ar_data parse_epoch (Some "key"%string) 0 0) 0%nat
    = (Ok DataFrame_empty, s',
       [Entry (the_request "key" 0 0) (Response 503 NotJson);
        Entry (st_show u) tt]).
Proof.
  apply (fetch_failure_gives_empty_table
           (scripted (Response 503 NotJson) 0.3) parse_epoch "key" 0 0 0%nat).
  right. exists 503%Z, NotJson. split; [reflexivity | lia].
Defined.

Lemma cell_eq_str_true (v : string) (c : cell) :
  cell_eq_str v c = true ↔ c = CStr v.
Proof.
  destruct c; cbn; try (split; [done | discriminate]).
  rewrite bool_decide_eq_true. split; congruence.
Qed.

(** A run on three records, the second one denied. *)
Example denial_risk_broadcast :
  ∃ u : Q,
    ((run (scripted api_three 0.3)
        (fetch_ar_data parse_epoch (Some "key"%string) 0 0) 0%nat).1.1
       ≫= fun df => getcol df "denial_risk")
    = Ok [CNum u; CNum 1.0; CNum u].
Proof. eexists. vm_compute. reflexivity. Qed.

(** ** The mock fetch *)

Lemma zip_with_map_both {A B C D} (f : B → C → D) (g1 : A → B) (g2 : A → C)
    (l : list A) :
  zip_with f (map g1 l) (map g2 l) = map (fun x => f (g1 x) (g2 x)) l.
Proof. induction l as [|x l IH]; [done |]. cbn. by rewrite IH. Qed.

Lemma setcol_map_rows {A} (cols : gset string) (f : A → dict) (g : A → cell)
    (l : list A) (c : string) :
  setcol (mkDataFrame cols (map f l)) c (map g l)
  = Ok (mkDataFrame ({[c]} ∪ cols) (map (fun x => <[c := g x]> (f x)) l)).
Proof.
  unfold setcol. cbn [rows columns].
  rewrite bool_decide_eq_true_2 by by rewrite !length_map.
  by rewrite zip_with_map_both.
Qed.

Lemma derive_fields_rows (parse : cell → option Z) (today : Z) (df : DataFrame) :
  "due_date" ∈ columns df → "amount_due" ∈ columns df →
  "amount_paid" ∈ columns df → "payer_name" ∈ columns df →
  "status" ∈ columns df →
  Forall (dated_at "due_date") (rows df) →
  Forall (numeric_at "amount_due") (rows df) →
  Forall (numeric_at "amount_paid") (rows df) →
  derive_fields parse today df
  = Ok (mkDataFrame
          ({["priority_score"]} ∪ ({["payer_risk"]} ∪ ({["outstanding"]}
            ∪ ({["aging_days"]} ∪ columns df))))
          (map (derive today) (rows df))).
Proof.
  destruct df as [cols l]. cbn [rows columns].
  intros Hdue Had Hap Hpn Hst Hdate Hnd Hnp. unfold derive_fields.
  rewrite getcol_in by done. cbn [mbind result_bind rows]. unfold to_datetime.
  rewrite (mapM_map_Ok _ _ (fun r => Some (time_of (cell_at "due_date" r)))).
  2:{ eapply Forall_impl; [exact Hdate |]. intros r [t Ht]. by rewrite Ht. }
  cbn [mbind result_bind]. unfold dt_days. rewrite map_map.
  rewrite (setcol_map (mkDataFrame cols l)). cbn [mbind result_bind rows columns].
  set (f1 := fun r : dict => <["aging_days" := _]> r).
  rewrite !getcol_in by (cbn; set_solver). cbn [mbind result_bind rows columns].
  rewrite !map_map.
  rewrite (series_binop_map _ _ _
             (fun r => CNum (num_of (cell_at "amount_due" r)
                             - num_of (cell_at "amount_paid" r)))).
  2:{ apply Forall_forall. intros r Hr.
      rewrite Forall_forall in Hnd, Hnp.
      destruct (Hnd r Hr) as [a Ha]. destruct (Hnp r Hr) as [b Hb].
      subst f1. cbn beta. rewrite !cell_at_insert_ne by done.
      by rewrite Ha, Hb. }
  cbn [mbind result_bind].
  rewrite setcol_map_rows. cbn [mbind result_bind].
  set (f2 := fun r : dict => <["outstanding" := _]> (f1 r)).
  rewrite calculate_priority_rows; cbn [rows columns].
  2-4: set_solver.
  2:{ apply Forall_forall. intros r (r0 & -> & _)%list_elem_of_fmap.
      subst f2 f1. cbn beta. eexists.
      rewrite cell_at_insert_ne by done. by rewrite cell_at_insert. }
  cbn [mbind result_bind]. rewrite !map_map.
  rewrite setcol_map_rows. done.
Qed.

Ltac run_step :=
  rewrite run_bind;
  let x := fresh "x" in let s' := fresh "s" in run_call x s'; cbn [fst snd].

Lemma mock_record_run {S} (h : handler S) (i_date : nat * Z) (s : S) :
  ∃ w s', run h (mock_record i_date) s = (Ok (record_of i_date w), s', trace_of w).
Proof.
  destruct i_date as [i date]. unfold mock_record.
  do 8 run_step. rewrite run_bind.
  destruct (Qlt_bool 0.7 x6) eqn:Hr.
  - run_step. cbn [run mret prog_ret]. run_step. cbn [run mret prog_ret].
    exists (mkDraws x x0 x1 x2 x3 x4 x5 x6 x7 x8). eexists.
    unfold record_of, trace_of. cbn [d_rand d_reason]. rewrite Hr. done.
  - cbn [run mret prog_ret]. run_step. cbn [run mret prog_ret].
    exists (mkDraws x x0 x1 x2 x3 x4 x5 x6 ""%string x7). eexists.
    unfold record_of, trace_of. cbn [d_rand d_reason]. rewrite Hr. done.
Qed.

Lemma mock_data_run {S} (h : handler S) (l : list (nat * Z)) (s : S) :
  ∃ ws s',
    length ws = length l ∧
    run h (mapM mock_record l) s
    = (Ok (zip_with record_of l ws), s', concat (map trace_of ws)).
Proof.
  revert s. induction l as [|x l IH]; intros s.
  - exists [], s. done.
  - change (mapM mock_record (x :: l))
      with (mock_record x ≫= fun y => mapM mock_record l ≫= fun k => mret (y :: k)).
    rewrite run_bind. destruct (mock_record_run h x s) as (w & s1 & ->).
    rewrite run_bind. destruct (IH s1) as (ws & s2 & Hlen & ->).
    cbn [run mret prog_ret]. exists (w :: ws), s2. split; [cbn; lia |].
    cbn [zip_with map concat]. by rewrite app_nil_r.
Qed.

Lemma date_range_90 (now : Z) :
  date_range (now - timedelta 90) now
  = map (fun k : nat => (now - timedelta 90 + timedelta (Z.of_nat k))%Z) (seq 0 91).
Proof.
  unfold date_range.
  assert ((now <? now - timedelta 90)%Z = false) as ->.
  { apply Z.ltb_ge. unfold timedelta, day. lia. }
  replace (now - (now - timedelta 90))%Z with (90 * day)%Z
    by (unfold timedelta; lia).
  rewrite Z.div_mul by done. done.
Qed.

Lemma length_enumerate_from {A} (i : nat) (l : list A) :
  length (enumerate_from i l) = length l.
Proof. revert i. induction l as [|x l IH]; intros i; cbn; [done |]. by rewrite IH. Qed.

Lemma dom_record_of (i_date : nat * Z) (w : draws) :
  dom (record_of i_date w) = mock_keys.
Proof. unfold record_of, mock_keys. rewrite !dom_insert_L, dom_empty_L. set_solver. Qed.

Lemma columns_of_same_keys (K : gset string) (l : list dict) :
  l ≠ [] → Forall (fun r => dom r = K) l → columns (DataFrame_of l) = K.
Proof.
  intros Hne Hall. cbn. induction Hall as [|r l Hr Hall IH]; [done |].
  cbn. rewrite Hr. destruct l as [|r' l]; [cbn; set_solver |].
  rewrite IH by done. set_solver.
Qed.

Lemma fetch_mock_run {S} (h : handler S) (parse : cell → option Z) (s : S) :
  ∃ now today ws s',
    length ws = 91%nat ∧
    run h (fetch_mock parse) s
    = (Ok (mkDataFrame mock_columns
             (map (derive today) (zip_with record_of (enumerate (window now)) ws))),
       s',
       Entry (st_show info_demo) tt :: Entry datetime_now now
         :: concat (map trace_of ws) ++ [Entry datetime_now today]).
Proof.
  unfold fetch_mock. rewrite run_bind, run_show. fold info_demo.
  run_step. rename x into now. rewrite date_range_90. fold (window now).
  rewrite run_bind.
  destruct (mock_data_run h (enumerate (window now)) s0) as (ws & s1 & Hlen & ->).
  run_step. rename x into today. rewrite run_lift.
  unfold enumerate in Hlen. rewrite length_enumerate_from in Hlen.
  change (length (window now)) with 91%nat in Hlen.
  set (data := zip_with record_of (enumerate (window now)) ws).
  assert (Forall (fun r => ∃ i_date w, r = record_of i_date w) data) as Hdata.
  { subst data. apply Forall_forall. intros r Hr.
    apply elem_of_lookup_zip_with in Hr as (_ & x & w & -> & _ & _). eauto. }
  assert (columns (DataFrame_of data) = mock_keys) as Hcols.
  { apply columns_of_same_keys.
    - subst data. destruct ws; [done |]. done.
    - eapply Forall_impl; [exact Hdata |]. intros r (x & w & ->).
      apply dom_record_of. }
  rewrite (derive_fields_rows parse today (DataFrame_of data)).
  - rewrite Hcols. exists now, today, ws, s2. split; [done |].
    done.
  - rewrite Hcols. solve_elem.
  - rewrite Hcols. solve_elem.
  - rewrite Hcols. solve_elem.
  - rewrite Hcols. solve_elem.
  - rewrite Hcols. solve_elem.
  - eapply Forall_impl; [exact Hdata |]. intros r (x & w & ->). by eexists.
  - eapply Forall_impl; [exact Hdata |]. intros r (x & w & ->). by eexists.
  - eapply Forall_impl; [exact Hdata |]. intros r (x & w & ->). by eexists.
Qed.

Lemma map_zip_with_l {A B C D} (f : A → B → C) (g : C → D) (g' : A → D)
    (l : list A) (k : list B) :
  length k = length l → (∀ x y, g (f x y) = g' x) →
  map g (zip_with f l k) = map g' l.
Proof.
  intros Hlen Hg. revert k Hlen.
  induction l as [|x l IH]; intros [|y k] Hlen; try done.
  cbn. rewrite Hg, IH; [done | by injection Hlen].
Qed.

Lemma Forall2_zip_with_r {A B C} (f : A → B → C) (P : C → B → Prop)
    (l : list A) (k : list B) :
  length k = length l → (∀ x y, P (f x y) y) → Forall2 P (zip_with f l k) k.
Proof.
  intros Hlen HP. revert k Hlen.
  induction l as [|x l IH]; intros [|y k] Hlen; try done; cbn.
  constructor; [done |]. apply IH. by injection Hlen.
Qed.

Lemma map_snd_enumerate_from {A} (i : nat) (l : list A) :
  map snd (enumerate_from i l) = l.
Proof. revert i. induction l as [|x l IH]; intros i; cbn; [done |]. by rewrite IH. Qed.

Lemma derive_record_status (today : Z) (i_date : nat * Z) (w : draws) :
  cell_at "status" (derive today (record_of i_date w)) = CStr (d_status w).
Proof. reflexivity. Qed.

Lemma derive_record_denial_reason (today : Z) (i_date : nat * Z) (w : draws) :
  cell_at "denial_reason" (derive today (record_of i_date w))
  = if Qlt_bool 0.7 (d_rand w) then CStr (d_reason w) else CNaN.
Proof. reflexivity. Qed.

Lemma Qlt_bool_iff (x y : Q) : Qlt_bool x y = true ↔ x < y.
Proof. unfold Qlt_bool. case_Qle y x; split; intros; try done; lra. Qed.

(** C8.  Without an API key the fetch does not depend on the dates it is
    given and never fails.  It reads the clock, and for each of the 91
    timestamps from 90 days before that reading to the reading itself, one
    day apart, it synthesizes exactly one record, due at that timestamp;
    the status of the record is the answer to one draw of
    [np.random.choice] over open, partial, denied, paid with the weights
    0.4, 0.2, 0.3, 0.1 (which sum to 1), and the record has a denial
    reason exactly when its draw of [np.random.rand] exceeds 0.7. *)
Theorem mock_table {S} (h : handler S) (parse : cell → option Z)
    (start_date end_date : Z) (s : S) :
  (∀ start_date' end_date' : Z,
     fetch_ar_data parse None start_date end_date
     = fetch_ar_data parse None start_date' end_date') ∧
  Qsum [0.4; 0.2; 0.3; 0.1] == 1 ∧
  ∃ (df : DataFrame) (s' : S) (now today : Z) (ws : list draws),
    run h (fetch_ar_data parse None start_date end_date) s
    = (Ok df, s',
       Entry (st_show info_demo) tt :: Entry datetime_now now
         :: concat (map trace_of ws) ++ [Entry datetime_now today]) ∧
    map (cell_at "due_date") (rows df)
    = map (fun k : nat => CTime (now - 90 * day + Z.of_nat k * day)) (seq 0 91) ∧
    Forall2 (fun (r : dict) (w : draws) =>
               cell_at "status" r = CStr (d_status w) ∧
               Entry (np_random_choice ["open"; "partial"; "denied"; "paid"]
                        (Some [0.4; 0.2; 0.3; 0.1])) (d_status w) ∈ trace_of w ∧
               Entry np_random_rand (d_rand w) ∈ trace_of w ∧
               (cell_at "denial_reason" r ≠ CNaN ↔ 0.7 < d_rand w))
      (rows df) ws.
Proof.
  split; [done |]. split; [reflexivity |].
  destruct (fetch_mock_run h parse s) as (now & today & ws & s' & Hlen & Hrun).
  eexists _, s', now, today, ws. split; [exact Hrun |].
  cbn [rows]. rewrite map_map.
  assert (length ws = length (enumerate (window now))) as Hlen'.
  { unfold enumerate. by rewrite length_enumerate_from, Hlen. }
  split.
  - rewrite (map_zip_with_l _ _ (fun x : nat * Z => CTime x.2)) by done.
    rewrite <- (map_map snd CTime). unfold enumerate.
    rewrite map_snd_enumerate_from. unfold window. by rewrite map_map.
  - apply Forall2_fmap_l. apply Forall2_zip_with_r; [done |].
    intros x w. unfold compose.
    rewrite derive_record_status, derive_record_denial_reason.
    split; [done |]. split; [| split].
    + unfold trace_of. set_solver.
    + unfold trace_of. set_solver.
    + rewrite <- Qlt_bool_iff. by destruct (Qlt_bool 0.7 (d_rand w)).
Qed.

(** ** The script after the fetch *)

Lemma threshold_filter_columns (min_priority : Q) (df df' : DataFrame) :
  threshold_filter min_priority df = Ok df' → columns df' = columns df.
Proof.
  unfold threshold_filter. intros H.
  apply result_bind_Ok in H as (score & _ & H).
  apply result_bind_Ok in H as (mask & _ & H).
  apply result_bind_Ok in H as (out & _ & H).
  apply result_bind_Ok in H as (mask' & _ & H).
  by injection H as <-.
Qed.

Lemma charts_shown_app (t1 t2 : trace) :
  charts_shown (t1 ++ t2) = charts_shown t1 ++ charts_shown t2.
Proof. unfold charts_shown, shown. by rewrite !omap_app. Qed.

(** On a frame without the column [aging_bucket], [render] ends in an
    exception and shows no chart. *)
Lemma render_without_bucket {S} (h : handler S)
    (sort : list (cell * dict) → list (cell * dict))
    (min_priority : Q) (df : DataFrame) (s : S) :
  "aging_bucket" ∉ columns df →
  ∃ e s' tr,
    run h (render sort min_priority df) s = (Raise e, s', tr) ∧
    charts_shown tr = [].
Proof.
  intros Hcol. unfold render. rewrite run_bind.
  destruct (empty df).
  { rewrite run_bind, run_show. cbn [run].
    eexists _, _, _; split; reflexivity. }
  cbn [run mret prog_ret]. rewrite run_bind, run_lift.
  destruct (threshold_filter min_priority df) as [df'|e] eqn:Hf;
    [| eexists _, _, _; split; reflexivity].
  apply threshold_filter_columns in Hf.
  rewrite run_bind, run_lift.
  destruct (key_metrics df') as [m|e]; [| eexists _, _, _; split; reflexivity].
  do 6 (rewrite run_bind, run_show). rewrite run_bind, run_lift.
  destruct (prioritized_accounts sort df') as [priority_df|e];
    [| eexists _, _, _; split; reflexivity].
  rewrite run_bind, run_lift.
  destruct (getcols priority_df display_cols) as [sh|e];
    [| eexists _, _, _; split; reflexivity].
  do 2 (rewrite run_bind, run_show). rewrite run_bind, run_lift.
  unfold groupby_sum. rewrite <- Hf in Hcol. 
  rewrite (getcol_notin df' "aging_bucket") by exact Hcol.
  eexists _, _, _; split; reflexivity.
Qed.

Lemma charts_shown_cons (e : entry) (tr : trace) :
  no_chart e → charts_shown (e :: tr) = charts_shown tr.
Proof. destruct e as [[] x]; try done. by destruct u. Qed.

Lemma charts_shown_mock (ws : list draws) :
  charts_shown (concat (map trace_of ws)) = [].
Proof.
  induction ws as [|w ws IH]; [done |].
  cbn [map concat]. rewrite charts_shown_app, IH. unfold trace_of.
  by destruct (Qlt_bool 0.7 (d_rand w)).
Qed.

Lemma dashboard_mock_run {S} (h : handler S) (parse : cell → option Z)
    (sort : list (cell * dict) → list (cell * dict)) (s : S) :
  ∃ e s' tr,
    run h (dashboard parse sort None) s = (Raise e, s', tr) ∧
    charts_shown tr = [].
Proof.
  unfold dashboard. do 5 run_step. rewrite run_bind. cbn [fetch_ar_data].
  destruct (fetch_mock_run h parse s4) as (now & today & ws & s5 & Hlen & ->).
  destruct (render_without_bucket h sort x3
              (mkDataFrame mock_columns
                 (map (derive today)
                    (zip_with record_of (enumerate (window now)) ws))) s5)
    as (e & s6 & tr & -> & Hch).
  { apply (bool_decide_unpack _). vm_compute. exact I. }
  eexists _, _, _. split; [reflexivity |].
  cbn [app]. rewrite !charts_shown_cons by exact I.
  rewrite !charts_shown_app, charts_shown_mock, Hch. done.
Qed.

(** C2.  Without an API key, whatever the clock, the draws and the widgets
    answer and however rows are sorted, the script ends in an exception
    before any aging chart is shown; on the scripted answers the exception
    is the [KeyError] of the column [aging_bucket], which line 114 wrote
    into [priority_df] and line 125 looks up in [df].  The bins of line 114
    give no bucket to an [aging_days] of 0. *)
Theorem aging_aggregation_raises {S} (h : handler S) (parse : cell → option Z)
    (sort : list (cell * dict) → list (cell * dict)) (s : S) :
  (∃ e s' tr,
     run h (dashboard parse sort None) s = (Raise e, s', tr) ∧
     charts_shown tr = []) ∧
  (run (scripted (ConnectionFailed "") 0.3)
     (dashboard parse_epoch sort_stable None) 0%nat).1.1
  = Raise (KeyError "aging_bucket") ∧
  cut_aging 0 = CNaN.
Proof.
  split; [apply dashboard_mock_run |]. split; [by vm_compute | done].
Qed.

(** C4, as the code has it.  When the fetched frame is empty, the script
    shows the warning and stops: nothing is filtered and no metric is
    computed.  The check is made on the fetched frame, before the
    threshold filter: when the fetched frame is not empty the warning is
    not shown, whatever the filter keeps. *)
Theorem no_data_when_fetch_is_empty {S} (h : handler S)
    (sort : list (cell * dict) → list (cell * dict))
    (min_priority : Q) (df : DataFrame) (s : S) :
  ∃ r s' tr,
    run h (render sort min_priority df) s = (r, s', tr) ∧
    if empty df
    then r = Raise StopException
         ∧ tr = [Entry (st_show (st_warning "No data in range. Adjust filters.")) tt]
    else warnings_shown tr = [].
Proof.
  unfold render. rewrite run_bind.
  destruct (empty df).
  { rewrite run_bind, run_show. cbn [run]. by eexists _, _, _. }
  cbn [run mret prog_ret]. rewrite run_bind, run_lift.
  destruct (threshold_filter min_priority df) as [df'|e];
    [| by eexists _, _, _].
  rewrite run_bind, run_lift.
  destruct (key_metrics df') as [m|e]; [| by eexists _, _, _].
  do 6 (rewrite run_bind, run_show). rewrite run_bind, run_lift.
  destruct (prioritized_accounts sort df') as [priority_df|e];
    [| by eexists _, _, _].
  rewrite run_bind, run_lift.
  destruct (getcols priority_df display_cols) as [sh|e];
    [| by eexists _, _, _].
  do 2 (rewrite run_bind, run_show). rewrite run_bind, run_lift.
  destruct (groupby_sum df' "aging_bucket" "outstanding") as [pivot|e];
    [| by eexists _, _, _].
  cbv beta iota. run_call shown_chart s9. destruct shown_chart.
  by eexists _, _, _.
Qed.

Lemma no_data_when_fetch_is_empty_witness :
  ∃ r s' tr,
    run (scripted (ConnectionFailed "") 0.3)
      (render sort_stable 0.3 DataFrame_empty) 0%nat = (r, s', tr) ∧
    r = Raise StopException ∧
    tr = [Entry (st_show (st_warning "No data in range. Adjust filters.")) tt].
Proof.
  apply (no_data_when_fetch_is_empty (scripted (ConnectionFailed "") 0.3)
           sort_stable 0.3 DataFrame_empty 0%nat).
Defined.

(** C4, as stated, fails: with the slider at 0.9 the mock frame is fetched
    with its 91 rows, the filter keeps none of them, and the script goes on
    to the metrics, the mean of [aging_days] over no row included; no
    warning is shown and the run ends in the [KeyError] of line 125. *)
Lemma no_data_claim_fails :
  let h := scripted (ConnectionFailed "") 0.9 in
  let r := run h (dashboard parse_epoch sort_stable None) 0%nat in
  (df ← (run h (fetch_ar_data parse_epoch None 0 0) 5%nat).1.1;
   df' ← threshold_filter 0.9 df;
   mret (empty df, len df, len df'))
  = Ok (false, 91%nat, 0%nat) ∧
  warnings_shown r.2 = [] ∧
  metrics_shown r.2
  = [("Total AR"%string, CNum 0); ("Open Accounts"%string, CNum 0);
     ("Avg DSO (Days)"%string, CNaN); ("Recovery Potential"%string, CNum 0)] ∧
  r.1.1 = Raise (KeyError "aging_bucket").
Proof.
  cbn zeta. split; [by vm_compute |].
  split; [by vm_compute |]. split; by vm_compute.
Qed.

(** ** The fetched frame and the filter *)

(** C3.  With an API key the fetch adds [aging_days] and [denial_risk] to
    the keys of the API records and nothing else; on a response with one
    record the fetched frame has no [outstanding], [payer_risk] or
    [priority_score], and the script ends in the [KeyError] of
    [priority_score] at the filter of line 89. *)
Theorem remote_fetch_lacks_derived_fields {S} (h : handler S)
    (parse : cell → option Z) (key : string) (sd ed : Z) (s : S) :
  (∃ df s' tr,
     run h (fetch_ar_data parse (Some key) sd ed) s = (Ok df, s', tr) ∧
     columns df
     ⊆ {["denial_risk"; "aging_days"]} ∪ api_keys (h (the_request key sd ed) s).1) ∧
  (let h := scripted api_ok 0.3 in
   (df ← (run h (fetch_ar_data parse_epoch (Some "key"%string) 0 0) 5%nat).1.1;
    mret (empty df,
          bool_decide ("aging_days" ∈ columns df),
          bool_decide ("outstanding" ∈ columns df),
          bool_decide ("payer_risk" ∈ columns df),
          bool_decide ("priority_score" ∈ columns df)))
   = Ok (false, true, false, false, false) ∧
   (run h (dashboard parse_epoch sort_stable (Some "key"%string)) 0%nat).1.1
   = Raise (KeyError "priority_score")).
Proof.
  split.
  - destruct (fetch_real_run h parse key sd ed s)
      as (df & s' & tr & Hrun & _ & Hcases).
    eexists df, s', _. split; [exact Hrun |].
    destruct Hcases as [[-> _] | (data & today & due & u & Hc)].
    + cbn. set_solver.
    + cbn zeta in Hc. destruct Hc as (-> & _ & _ & _ & ->). cbn. set_solver.
  - cbn zeta. split; by vm_compute.
Qed.

(** ** Sorting *)

Lemma round_half_even_nearest (x : Q) :
  inject_Z (round_half_even x) - (1 # 2) <= x
  ∧ x <= inject_Z (round_half_even x) + (1 # 2).
Proof.
  destruct x as [n d]. unfold round_half_even. cbn [Qnum Qden].
  pose proof (Z.div_mod n (Z.pos d) ltac:(done)) as Hdm.
  pose proof (Z.mod_pos_bound n (Z.pos d) ltac:(done)) as Hm.
  set (f := (n / Z.pos d)%Z) in *. set (m := (n mod Z.pos d)%Z) in *.
  assert (∀ z : Z, (inject_Z z - (1 # 2) <= n # d ↔ (2 * z * Z.pos d - Z.pos d <= 2 * n)%Z)
                 ∧ (n # d <= inject_Z z + (1 # 2) ↔ (2 * n <= 2 * z * Z.pos d + Z.pos d)%Z))
    as Hz.
  { intros z. unfold Qle, Qminus, Qplus, Qopp, inject_Z. cbn. split; split; lia. }
  destruct (Z.ltb_spec (2 * m) (Z.pos d)); [| destruct (Z.ltb_spec (Z.pos d) (2 * m));
    [| destruct (Z.even f)]];
    split; apply Hz; nia.
Qed.

Section insertion.

Context {A : Type} (before : A → A → bool) (R : A → A → Prop) (P : A → Prop).
Hypothesis before_true : ∀ x y, P x → P y → before x y = true → R x y.
Hypothesis before_false : ∀ x y, P x → P y → before x y = false → R y x.
Hypothesis R_trans : ∀ x y z, R x y → R y z → R x z.

Lemma insert_before_perm (x : A) (l : list A) :
  insert_before before x l ≡ₚ x :: l.
Proof.
  induction l as [|y l IH]; [done |]. cbn.
  destruct (before x y); [done |]. rewrite IH. apply Permutation_swap.
Qed.

Lemma insertion_sort_perm (l : list A) : insertion_sort before l ≡ₚ l.
Proof.
  induction l as [|x l IH]; [done |]. cbn.
  fold (insertion_sort before l). by rewrite insert_before_perm, IH.
Qed.

Lemma insert_before_sorted (x : A) (l : list A) :
  P x → Forall P l → StronglySorted R l →
  StronglySorted R (insert_before before x l).
Proof.
  intros Hx Hl Hs. induction Hs as [|y l Hs IH Hy]; cbn.
  - by repeat constructor.
  - apply Forall_cons in Hl as [HPy Hl].
    destruct (before x y) eqn:E.
    + constructor; [by constructor |]. constructor.
      * by apply before_true.
      * eapply Forall_impl; [exact Hy |]. intros z Hz.
        eapply R_trans; [by apply before_true | done].
    + constructor; [by apply IH |].
      rewrite insert_before_perm. constructor; [by apply before_false | done].
Qed.

Lemma insertion_sort_sorted (l : list A) :
  Forall P l → StronglySorted R (insertion_sort before l).
Proof.
  induction 1 as [|x l Hx Hl IH]; [constructor |]. cbn.
  fold (insertion_sort before l). apply insert_before_sorted; [done | | done].
  by rewrite insertion_sort_perm.
Qed.
End insertion.

Lemma descending_trans (x y z : cell * dict) :
  descending x y → descending y z → descending x z.
Proof. unfold descending. lra. Qed.

Lemma sort_stable_descending : sorts_descending sort_stable.
Proof.
  intros l Hl. split; [apply insertion_sort_perm |].
  apply (insertion_sort_sorted _ descending numeric_key);
    [| | apply descending_trans | done].
  - intros x y [q Hq] [q' Hq']. unfold descending. rewrite Hq, Hq'. cbn.
    by rewrite Qle_bool_iff.
  - intros x y [q Hq] [q' Hq']. unfold descending. rewrite Hq, Hq'. cbn.
    case_Qle q' q; [done | lra].
Qed.

(** ** The prioritized accounts *)

Lemma zip_map_same {A B} (f : A → B) (l : list A) :
  zip (map f l) l = map (fun x => (f x, x)) l.
Proof. induction l as [|x l IH]; [done |]. cbn. by rewrite IH. Qed.

Lemma setcol_map_mk (cols : gset string) (l : list dict) (c : string)
    (g : dict → cell) :
  setcol (mkDataFrame cols l) c (map g l)
  = Ok (mkDataFrame ({[c]} ∪ cols) (map (fun r => <[c := g r]> r) l)).
Proof. apply (setcol_map (mkDataFrame cols l)). Qed.

Lemma prioritized_accounts_rows (sort : list (cell * dict) → list (cell * dict))
    (df : DataFrame) :
  "priority_score" ∈ columns df → "aging_days" ∈ columns df →
  Forall (numeric_at "priority_score") (sorted_rows sort df) →
  Forall (numeric_at "aging_days") (sorted_rows sort df) →
  prioritized_accounts sort df
  = Ok (mkDataFrame
          ({["next_action"]} ∪ ({["aging_bucket"]}
             ∪ ({["priority_score"]} ∪ columns df)))
          (map top_row (take 10 (sorted_rows sort df)))).
Proof.
  intros Hp Ha Hnp Hna. unfold prioritized_accounts, sort_values.
  rewrite getcol_in by done. cbn [mbind result_bind mret result_ret].
  rewrite zip_map_same. fold (sorted_rows sort df). unfold head.
  cbn [rows columns].
  set (top := take 10 (sorted_rows sort df)).
  assert (Forall (numeric_at "priority_score") top) as Hnp'
    by by apply Forall_take.
  assert (Forall (numeric_at "aging_days") top) as Hna'
    by by apply Forall_take.
  rewrite getcol_in by done. cbn [mbind result_bind rows]. unfold percent.
  rewrite (mapM_map_Ok _ _
             (fun r => CNum (inject_Z (percent_of
                                         (num_of (cell_at "priority_score" r)))))).
  2:{ eapply Forall_impl; [exact Hnp' |]. intros r [q Hq]. by rewrite Hq. }
  cbn [mbind result_bind].
  rewrite setcol_map_mk. cbn [mbind result_bind].
  rewrite getcol_in by (cbn; set_solver). cbn [mbind result_bind rows].
  rewrite map_map. unfold pd_cut_aging.
  rewrite (mapM_map_Ok _ _
             (fun r => cut_aging (num_of (cell_at "aging_days" r)))).
  2:{ eapply Forall_impl; [exact Hna' |]. intros r [q Hq].
      rewrite cell_at_insert_ne by done. by rewrite Hq. }
  cbn [mbind result_bind]. rewrite setcol_map_rows. cbn [mbind result_bind].
  rewrite getcol_in by (cbn; set_solver). cbn [mbind result_bind rows].
  rewrite map_map. unfold series_gt.
  rewrite (mapM_map_Ok _ _
             (fun r => Qlt_bool 60 (num_of (cell_at "aging_days" r)))).
  2:{ eapply Forall_impl; [exact Hna' |]. intros r [q Hq].
      rewrite !cell_at_insert_ne by done. by rewrite Hq. }
  cbn [mbind result_bind]. unfold np_where. rewrite !map_map.
  rewrite setcol_map_rows. done.
Qed.

Lemma StronglySorted_map {A B} (R : A → A → Prop) (R' : B → B → Prop)
    (P : A → Prop) (f : A → B) (l : list A) :
  (∀ x y, P x → P y → R x y → R' (f x) (f y)) →
  Forall P l → StronglySorted R l → StronglySorted R' (map f l).
Proof.
  intros HR HP Hs. induction Hs as [|x l Hs IH Hx]; [constructor |].
  apply Forall_cons in HP as [HPx HP]. cbn. constructor; [by apply IH |].
  apply Forall_fmap. apply Forall_forall. intros y Hy.
  rewrite Forall_forall in Hx, HP. apply HR; auto.
Qed.

Lemma sorted_rows_spec (sort : list (cell * dict) → list (cell * dict))
    (df : DataFrame) :
  sorts_descending sort →
  Forall (numeric_at "priority_score") (rows df) →
  sorted_rows sort df ≡ₚ rows df ∧ StronglySorted by_score (sorted_rows sort df).
Proof.
  intros Hsort Hnum. unfold sorted_rows.
  set (l0 := map (fun r => (cell_at "priority_score" r, r)) (rows df)).
  destruct (Hsort l0) as [Hperm Hsorted].
  { subst l0. apply Forall_fmap. eapply Forall_impl; [exact Hnum |].
    intros r [q Hq]. by exists q. }
  split.
  - rewrite Hperm. subst l0. rewrite map_map. cbn. by rewrite map_id.
  - apply (StronglySorted_map descending by_score
             (fun x => x.1 = cell_at "priority_score" x.2)); [| | done].
    + intros x y Hx Hy. unfold descending, by_score. by rewrite Hx, Hy.
    + rewrite Hperm. subst l0. apply Forall_fmap. by apply Forall_forall.
Qed.

(** C5, as the code has it.  [priority_df] is made of the first ten rows
    of the frame sorted by descending [priority_score], in whatever order
    the library's default sort leaves rows of equal score; each of them
    gets as [priority_score] the integer nearest to the binary64 product
    of its score and 100 (halves to the even neighbour), and as
    [next_action] "Escalate to Collector" when its [aging_days] exceed 60,
    "Auto-Followup Email" otherwise; its other fields are kept. *)
Theorem top_ten_selection (sort : list (cell * dict) → list (cell * dict))
    (df : DataFrame) :
  sorts_descending sort →
  "priority_score" ∈ columns df → "aging_days" ∈ columns df →
  Forall (numeric_at "priority_score") (rows df) →
  Forall (numeric_at "aging_days") (rows df) →
  ∃ (sorted : list dict) (priority_df : DataFrame),
    prioritized_accounts sort df = Ok priority_df ∧
    sorted ≡ₚ rows df ∧
    StronglySorted by_score sorted ∧
    Forall2
      (fun r r' : dict =>
         ∃ (score aging_days product : Q) (pct : Z),
           cell_at "priority_score" r = CNum score ∧
           cell_at "aging_days" r = CNum aging_days ∧
           cell_at "priority_score" r' = CNum (inject_Z pct) ∧
           product = binary64 (binary64 score * 100) ∧
           pct = round_half_even product ∧
           inject_Z pct - (1 # 2) <= product ∧
           product <= inject_Z pct + (1 # 2) ∧
           (60 < aging_days →
            cell_at "next_action" r' = CStr "Escalate to Collector") ∧
           (aging_days <= 60 →
            cell_at "next_action" r' = CStr "Auto-Followup Email") ∧
           ∀ c : string,
             c ∉ ["priority_score"; "aging_bucket"; "next_action"] →
             cell_at c r' = cell_at c r)
      (take 10 sorted) (rows priority_df).
Proof.
  intros Hsort Hp Ha Hnp Hna.
  destruct (sorted_rows_spec sort df Hsort Hnp) as [Hperm Hsorted].
  exists (sorted_rows sort df). eexists.
  split.
  { apply prioritized_accounts_rows; [done | done | |]; by rewrite Hperm. }
  split; [done |]. split; [done |]. cbn [rows].
  apply Forall2_fmap_r, Forall_Forall2_diag, Forall_take.
  rewrite Hperm. apply Forall_forall. intros r Hr.
  rewrite Forall_forall in Hnp, Hna.
  destruct (Hnp r Hr) as [score Hs]. destruct (Hna r Hr) as [aging Hag].
  exists score, aging, (binary64 (binary64 score * 100)), (percent_of score).
  unfold compose, top_row. rewrite Hs, Hag. cbn [num_of].
  split; [done |]. split; [done |].
  split. { rewrite !cell_at_insert_ne by done. by rewrite cell_at_insert. }
  split; [done |]. split; [done |].
  destruct (round_half_even_nearest (binary64 (binary64 score * 100)))
    as [Hlo Hhi].
  split; [done |]. split; [done |].
  rewrite cell_at_insert. split; [| split].
  - intros H. apply Qlt_bool_iff in H. by rewrite H.
  - intros H. unfold Qlt_bool. apply Qle_bool_iff in H. by rewrite H.
  - intros c Hc. rewrite !cell_at_insert_ne; [done | | |];
      intros <-; apply Hc; set_solver.
Qed.

Lemma top_ten_selection_witness :
  ∃ priority_df,
    prioritized_accounts sort_stable tie_frame = Ok priority_df ∧
    len priority_df = 2%nat.
Proof.
  destruct (top_ten_selection sort_stable tie_frame)
    as (sorted & priority_df & Hrun & Hperm & _ & Hrows).
  - apply sort_stable_descending.
  - solve_elem.
  - solve_elem.
  - repeat constructor; by eexists.
  - repeat constructor; by eexists.
  - exists priority_df. split; [exact Hrun |].
    unfold len. rewrite <- (Forall2_length _ _ _ Hrows).
    rewrite length_take, (Permutation_length Hperm). reflexivity.
Defined.

(** C5, as stated, fails on the sort the script calls.  Of twenty-four
    invoices, ten have the highest score; with a stable tie-break the
    table would list these ten in the order of the frame.  The table that
    line 112 to 115 make of the frame does hold ten rows of percentage 90,
    but not in that order. *)
Lemma top_ten_tie_order_not_kept :
  let top := [CStr "INV-1000"; CStr "INV-1002"; CStr "INV-1005"; CStr "INV-1007";
              CStr "INV-1010"; CStr "INV-1012"; CStr "INV-1015"; CStr "INV-1017";
              CStr "INV-1020"; CStr "INV-1022"] in
  len tie_invoices = 24%nat ∧
  invoice_ids
    (select tie_invoices
       (map (fun r => Qeq_bool (num_of (cell_at "priority_score" r)) 0.9)
          (rows tie_invoices))) = top ∧
  Forall (fun r => num_of (cell_at "priority_score" r) <= 0.9) (rows tie_invoices) ∧
  (prioritized_accounts sort_stable tie_invoices
     ≫= fun priority_df => mret (invoice_ids priority_df)) = Ok top ∧
  ∃ priority_df : DataFrame,
    prioritized_accounts sort_values_quicksort tie_invoices = Ok priority_df ∧
    getcol priority_df "priority_score" = Ok (replicate 10 (CNum 90)) ∧
    invoice_ids priority_df ≠ top.
Proof.
  cbn zeta. split; [by vm_compute |]. split; [by vm_compute |].
  split.
  { apply Forall_forall. intros r Hr. unfold tie_invoices in Hr. cbn [rows DataFrame_of] in Hr.
    apply list_elem_of_fmap in Hr as (i & -> & _).
    unfold tie_row. rewrite cell_at_insert_ne, cell_at_insert by done.
    cbn [num_of]. unfold tie_score. by repeat case_match. }
  split; [by vm_compute |].
  destruct (prioritized_accounts sort_values_quicksort tie_invoices)
    as [priority_df|e] eqn:Hrun; [| by vm_compute in Hrun].
  exists priority_df. split; [done |].
  assert ((prioritized_accounts sort_values_quicksort tie_invoices
             ≫= fun d => getcol d "priority_score") = Ok (replicate 10 (CNum 90))
          ∧ (prioritized_accounts sort_values_quicksort tie_invoices
               ≫= fun d => mret (invoice_ids d))
            = Ok [CStr "INV-1000"; CStr "INV-1007"; CStr "INV-1022"; CStr "INV-1020";
                  CStr "INV-1017"; CStr "INV-1015"; CStr "INV-1010"; CStr "INV-1012";
                  CStr "INV-1005"; CStr "INV-1002"]) as [H1 H2].
  { split; by vm_compute. }
  rewrite Hrun in H1, H2. cbn in H1, H2. split; [exact H1 |].
  injection H2 as ->. discriminate.
Qed.

(** * Further properties *)

(** ** The fetch with an API key, whatever the response *)

Lemma requests_cons_get (url : string) (headers : list (string * string))
    (params : list (string * param)) (timeout : Z) (x : http_outcome)
    (tr : trace) :
  requests (Entry (requests_get url headers params timeout) x :: tr)
  = requests_get url headers params timeout :: requests tr.
Proof. reflexivity. Qed.

(** X1.  With an API key the fetch never raises, whatever the network and
    the API answer, and it makes exactly one request, the one of line
    27. *)
Theorem remote_fetch_never_raises {S} (h : handler S)
    (parse : cell → option Z) (key : string) (sd ed : Z) (s : S) :
  ∃ df s' tr,
    run h (fetch_ar_data parse (Some key) sd ed) s = (Ok df, s', tr) ∧
    requests tr
    = [requests_get "https://api.nikohealth.com/v2/payments"
         [("Authorization", "Bearer " +:+ key)]
         [("start_date", PDate sd); ("end_date", PDate ed); ("limit", PInt 1000)]
         20].
Proof.
  destruct (fetch_real_run h parse key sd ed s)
    as (df & s' & tr & Hrun & Hreq & _).
  eexists df, s', _. split; [exact Hrun |].
  unfold the_request. by rewrite requests_cons_get, Hreq.
Qed.

(** X2.  A 200 response whose records have no [due_date] key, an empty
    list of records and a body without ["data"] included, is handled as a
    failure: the clock is read, the [KeyError] of [due_date] is caught
    and shown as a connection issue, and the empty frame is returned. *)
Theorem remote_fetch_without_due_date {S} (h : handler S)
    (parse : cell → option Z) (key : string) (sd ed : Z) (s : S)
    (data : option (list (gmap string json))) :
  (h (the_request key sd ed) s).1 = Response 200 (JsonObject data) →
  "due_date" ∉ columns (DataFrame_of (records_of_json (default [] data))) →
  ∃ today s',
    run h (fetch_ar_data parse (Some key) sd ed) s
    = (Ok DataFrame_empty, s',
       [Entry (the_request key sd ed) (Response 200 (JsonObject data));
        Entry datetime_now today;
        Entry (st_show (st_error_connection (KeyError "due_date"))) tt]).
Proof.
  intros Hresp Hcol. cbn [fetch_ar_data]. unfold fetch_real.
  rewrite run_try_except, run_bind. fold (the_request key sd ed).
  run_call resp s1. cbn [fst snd] in Hresp. subst resp.
  rewrite bool_decide_eq_true_2 by done.
  rewrite run_bind, run_lift. cbn [response_data].
  rewrite run_bind. run_call today s2. rewrite run_bind, run_lift.
  rewrite getcol_notin by done. cbn [mbind result_bind].
  rewrite run_handler. by eexists _, _.
Qed.

Lemma remote_fetch_without_due_date_witness :
  ∃ today s',
    run (scripted (Response 200 (JsonObject None)) 0.3)
      (fetch_ar_data parse_epoch (Some "key"%string) 0 0) 0%nat
    = (Ok DataFrame_empty, s',
       [Entry (the_request "key" 0 0) (Response 200 (JsonObject None));
        Entry datetime_now today;
        Entry (st_show (st_error_connection (KeyError "due_date"))) tt]).
Proof.
  apply (remote_fetch_without_due_date
           (scripted (Response 200 (JsonObject None)) 0.3) parse_epoch
           "key" 0 0 0%nat None).
  - reflexivity.
  - apply (bool_decide_unpack _). vm_compute. exact I.
Defined.

Lemma to_datetime_readable (parse : cell → option Z) (c : string) (l : list dict) :
  Forall (fun r => readable parse (cell_at c r)) l →
  to_datetime parse (map (cell_at c) l)
  = Ok (map (fun r => due_of parse (cell_at c r)) l).
Proof.
  intros Hl. unfold to_datetime. apply mapM_map_Ok.
  eapply Forall_impl; [exact Hl |]. intros r [Hr | [t Hr]].
  - by rewrite Hr.
  - destruct (cell_at c r); cbn in *; try done; by rewrite Hr.
Qed.

Lemma fetch_real_rows {S} (h : handler S)
    (parse : cell → option Z) (key : string) (sd ed : Z) (s : S)
    (data : option (list (gmap string json))) :
  let records := records_of_json (default [] data) in
  (h (the_request key sd ed) s).1 = Response 200 (JsonObject data) →
  "due_date" ∈ columns (DataFrame_of records) →
  "status" ∈ columns (DataFrame_of records) →
  Forall (fun r => readable parse (cell_at "due_date" r)) records →
  ∃ (today : Z) (u : Q) (s' : S),
    run h (fetch_real parse key sd ed) s
    = (Ok (mkDataFrame
             ({["denial_risk"]} ∪ ({["aging_days"]} ∪ columns (DataFrame_of records)))
             (map (real_row parse today u) records)),
       s',
       [Entry (the_request key sd ed) (Response 200 (JsonObject data));
        Entry datetime_now today;
        Entry (np_random_uniform 0.1 0.8) u]).
Proof.
  intros records Hresp Hdue Hstatus Hread. unfold fetch_real.
  rewrite run_try_except, run_bind. fold (the_request key sd ed).
  run_call resp s1. cbn [fst snd] in Hresp. subst resp.
  rewrite bool_decide_eq_true_2 by done.
  rewrite run_bind, run_lift. cbn [response_data]. fold records.
  rewrite run_bind. run_call today s2. rewrite run_bind, run_lift.
  rewrite getcol_in by done. cbn [mbind result_bind].
  change (rows (DataFrame_of records)) with records.
  rewrite to_datetime_readable by done.
  unfold dt_days. rewrite map_map.
  change (DataFrame_of records)
    with (mkDataFrame (columns (DataFrame_of records)) records) at 1.
  rewrite run_bind, run_lift, setcol_map_mk.
  rewrite run_bind, run_lift, getcol_in by (cbn; set_solver).
  cbn [rows]. rewrite run_bind. run_call u s3. rewrite run_lift.
  unfold np_where, series_eq_str. rewrite !map_map, setcol_map_rows.
  exists today, u, s3. cbn [app]. do 4 f_equal.
  apply map_ext. intros r. unfold real_row.
  by rewrite cell_at_insert_ne.
Qed.

(** C10.  With an API key, a successful fetch (a 200 response whose
    records have a [status] and a [due_date] that is readable or missing)
    returns one row per record, with the statuses of the records in their
    order, after exactly one uniform draw, between 0.1 and 0.8: every row
    has [denial_risk] 1.0 when its status is "denied" and the value of
    that one draw otherwise. *)
Theorem denial_risk_single_draw {S} (h : handler S)
    (parse : cell → option Z) (key : string) (sd ed : Z) (s : S)
    (data : option (list (gmap string json))) :
  let records := records_of_json (default [] data) in
  (h (the_request key sd ed) s).1 = Response 200 (JsonObject data) →
  "due_date" ∈ columns (DataFrame_of records) →
  "status" ∈ columns (DataFrame_of records) →
  Forall (fun r => readable parse (cell_at "due_date" r)) records →
  ∃ (df : DataFrame) (s' : S) (tr : trace) (u : Q),
    run h (fetch_ar_data parse (Some key) sd ed) s = (Ok df, s', tr) ∧
    uniform_draws tr = [(0.1, 0.8, u)] ∧
    "denial_risk" ∈ columns df ∧
    map (cell_at "status") (rows df) = map (cell_at "status") records ∧
    Forall (fun r : dict =>
              (cell_at "status" r = CStr "denied" →
               cell_at "denial_risk" r = CNum 1.0) ∧
              (cell_at "status" r ≠ CStr "denied" →
               cell_at "denial_risk" r = CNum u))
      (rows df).
Proof.
  intros records Hresp Hdue Hstatus Hread. cbn [fetch_ar_data].
  destruct (fetch_real_rows h parse key sd ed s data Hresp Hdue Hstatus Hread)
    as (today & u & s' & Hrun).
  eexists _, s', _, u. split; [exact Hrun |].
  split; [reflexivity |]. split; [cbn [columns]; set_solver |]. cbn [rows].
  split.
  { rewrite map_map. apply map_ext. intros r. unfold real_row.
    by rewrite !cell_at_insert_ne. }
  apply Forall_fmap, Forall_forall. intros r _. unfold compose, real_row.
  rewrite cell_at_insert, !cell_at_insert_ne by done.
  split.
  - intros Hd. apply cell_eq_str_true in Hd. by rewrite Hd.
  - intros Hd. destruct (cell_eq_str "denied" (cell_at "status" r)) eqn:E; [| done].
    by apply cell_eq_str_true in E.
Qed.

Lemma denial_risk_single_draw_witness :
  ∃ (df : DataFrame) (s' : nat) (tr : trace) (u : Q),
    run (scripted api_three 0.3)
      (fetch_ar_data parse_epoch (Some "key"%string) 0 0) 0%nat
    = (Ok df, s', tr) ∧
    uniform_draws tr = [(0.1, 0.8, u)] ∧
    map (cell_at "status") (rows df) = [CStr "open"; CStr "denied"; CStr "partial"].
Proof.
  destruct (denial_risk_single_draw (scripted api_three 0.3) parse_epoch
              "key" 0 0 0%nat
              (Some [api_record; <["status" := JStr "denied"]> api_record;
                     <["status" := JStr "partial"]> api_record]))
    as (df & s' & tr & u & Hrun & Hdraw & _ & Hst & _).
  - reflexivity.
  - solve_elem.
  - solve_elem.
  - repeat (apply Forall_cons; split; [right; eexists; reflexivity |]).
    by constructor.
  - exists df, s', tr, u. split; [exact Hrun |]. split; [exact Hdraw |].
    rewrite Hst. reflexivity.
Defined.

(** X3.  On a 200 response whose records have a [status] and a [due_date]
    that is readable or missing, and whose numbers are binary64 numbers,
    the fetch succeeds: it reads the clock once, draws once, and returns
    one row per API record, in their order, each with the fields of its
    record, with [aging_days] the whole days from its due date to the
    clock reading (missing when the date is), and with [denial_risk].
    (An integer of more than 53 bits in a column with a missing value
    would be rounded by [pd.DataFrame].) *)
Theorem remote_fetch_success {S} (h : handler S)
    (parse : cell → option Z) (key : string) (sd ed : Z) (s : S)
    (data : option (list (gmap string json))) :
  let records := records_of_json (default [] data) in
  (h (the_request key sd ed) s).1 = Response 200 (JsonObject data) →
  binary64_records (default [] data) →
  "due_date" ∈ columns (DataFrame_of records) →
  "status" ∈ columns (DataFrame_of records) →
  Forall (fun r => readable parse (cell_at "due_date" r)) records →
  ∃ (today : Z) (u : Q) (s' : S),
    run h (fetch_ar_data parse (Some key) sd ed) s
    = (Ok (mkDataFrame
             ({["denial_risk"]} ∪ ({["aging_days"]} ∪ columns (DataFrame_of records)))
             (map (real_row parse today u) records)),
       s',
       [Entry (the_request key sd ed) (Response 200 (JsonObject data));
        Entry datetime_now today;
        Entry (np_random_uniform 0.1 0.8) u]).
Proof.
  intros records Hresp _ Hdue Hstatus Hread. cbn [fetch_ar_data].
  by apply fetch_real_rows.
Qed.

Lemma remote_fetch_success_witness :
  ∃ df s' tr,
    run (scripted api_three 0.3)
      (fetch_ar_data parse_epoch (Some "key"%string) 0 0) 0%nat
    = (Ok df, s', tr) ∧ len df = 3%nat.
Proof.
  destruct (remote_fetch_success (scripted api_three 0.3) parse_epoch
              "key" 0 0 0%nat
              (Some [api_record; <["status" := JStr "denied"]> api_record;
                     <["status" := JStr "partial"]> api_record]))
    as (today & u & s' & Hrun).
  - reflexivity.
  - solve_elem.
  - solve_elem.
  - solve_elem.
  - repeat (apply Forall_cons; split; [right; eexists; reflexivity |]).
    by constructor.
  - eexists _, _, _. split; [exact Hrun | reflexivity].
Defined.

(** ** The mock frame *)

Lemma mock_rows_shape (today : Z) (l : list (nat * Z)) (ws : list draws) :
  Forall (fun r => ∃ i_date w, r = derive today (record_of i_date w))
    (map (derive today) (zip_with record_of l ws)).
Proof.
  apply Forall_fmap, Forall_forall. intros r Hr.
  apply elem_of_lookup_zip_with in Hr as (_ & x & w & -> & _ & _). by eexists _, _.
Qed.

Lemma requests_app (t1 t2 : trace) : requests (t1 ++ t2) = requests t1 ++ requests t2.
Proof. unfold requests. by rewrite omap_app. Qed.

Lemma requests_mock (ws : list draws) : requests (concat (map trace_of ws)) = [].
Proof.
  induction ws as [|w ws IH]; [done |].
  cbn [map concat]. rewrite requests_app, IH. unfold trace_of.
  by destruct (Qlt_bool 0.7 (d_rand w)).
Qed.

(** X4.  Without an API key the fetch makes no request, and every row of
    the frame it returns carries the four derived fields: [outstanding]
    is [amount_due] minus [amount_paid], [payer_risk] is the looked-up
    risk of its payer, and [priority_score] is the score of its own
    [aging_days], payer and status. *)
Theorem mock_fetch_derives_all_fields {S} (h : handler S)
    (parse : cell → option Z) (sd ed : Z) (s : S) :
  ∃ df s' tr,
    run h (fetch_ar_data parse None sd ed) s = (Ok df, s', tr) ∧
    requests tr = [] ∧
    {["aging_days"; "outstanding"; "payer_risk"; "priority_score"]} ⊆ columns df ∧
    Forall (fun r : dict =>
              ∃ due paid aging : Q,
                cell_at "amount_due" r = CNum due ∧
                cell_at "amount_paid" r = CNum paid ∧
                cell_at "outstanding" r = CNum (due - paid) ∧
                cell_at "aging_days" r = CNum aging ∧
                cell_at "payer_risk" r
                = CNum (payer_risk_of (cell_at "payer_name" r)) ∧
                cell_at "priority_score" r
                = CNum (priority_score aging (cell_at "payer_name" r)
                          (cell_at "status" r)))
      (rows df).
Proof.
  destruct (fetch_mock_run h parse s) as (now & today & ws & s' & Hlen & Hrun).
  eexists _, _, _. split; [exact Hrun |]. split; [| split].
  - change (requests (?a :: ?b :: ?t)) with (requests t).
    by rewrite requests_app, requests_mock.
  - cbn [columns]. unfold mock_columns. set_solver.
  - cbn [rows]. eapply Forall_impl; [apply mock_rows_shape |].
    intros r (x & w & ->). by eexists _, _, _.
Qed.

Lemma day_pos : (0 < day)%Z.
Proof. done. Qed.

Lemma window_age (now today : Z) (k : nat) :
  ((today - (now - timedelta 90 + timedelta (Z.of_nat k))) / day
   = (today - now) / day + (90 - Z.of_nat k))%Z.
Proof.
  unfold timedelta.
  replace (today - (now - 90 * day + Z.of_nat k * day))%Z
    with (today - now + (90 - Z.of_nat k) * day)%Z by lia.
  apply Z.div_add. done.
Qed.

(** X5.  Without an API key, the record of the k-th date of the loop
    (k from 0 to 90) gets as [aging_days] the whole days between the two
    clock readings, plus 90, minus k; when the second reading follows the
    first by less than a day, the ages are 90, 89, ..., 0. *)
Theorem mock_aging_days {S} (h : handler S) (parse : cell → option Z)
    (sd ed : Z) (s : S) :
  ∃ (df : DataFrame) (s' : S) (now today : Z) (tr : trace),
    run h (fetch_ar_data parse None sd ed) s
    = (Ok df, s',
       Entry (st_show info_demo) tt :: Entry datetime_now now
         :: tr ++ [Entry datetime_now today]) ∧
    getcol df "aging_days"
    = Ok (map (fun k : nat =>
                 CNum (inject_Z ((today - now) / day + (90 - Z.of_nat k))))
            (seq 0 91)) ∧
    ((now ≤ today < now + day)%Z →
     getcol df "aging_days"
     = Ok (map (fun k : nat => CNum (inject_Z (90 - Z.of_nat k))) (seq 0 91))).
Proof.
  destruct (fetch_mock_run h parse s) as (now & today & ws & s' & Hlen & Hrun).
  eexists _, s', now, today, _. split; [exact Hrun |].
  assert (length ws = length (enumerate (window now))) as Hlen'.
  { unfold enumerate. by rewrite length_enumerate_from, Hlen. }
  assert (getcol
            (mkDataFrame mock_columns
               (map (derive today)
                  (zip_with record_of (enumerate (window now)) ws)))
            "aging_days"
          = Ok (map (fun k : nat =>
                       CNum (inject_Z ((today - now) / day + (90 - Z.of_nat k))))
                  (seq 0 91))) as Hcol.
  { rewrite getcol_in by solve_elem. cbn [rows]. rewrite map_map.
    rewrite (map_zip_with_l _ _
               (fun x : nat * Z => CNum (inject_Z ((today - x.2) / day))))
      by done.
    rewrite <- (map_map snd (fun d => CNum (inject_Z ((today - d) / day)))).
    unfold enumerate. rewrite map_snd_enumerate_from. unfold window.
    rewrite map_map. f_equal. apply map_ext. intros k.
    by rewrite window_age. }
  split; [exact Hcol |]. intros Hclock. rewrite Hcol. f_equal.
  apply map_ext. intros k. rewrite Z.div_small by lia. done.
Qed.

(** ** The scoring function at its edges *)

Lemma payer_risk_of_values (payer_name : cell) :
  payer_risk_of payer_name ∈ [0.2; 0.3; 0.4; 0.5; 0.6].
Proof.
  destruct payer_name; try (cbn; set_solver).
  rewrite payer_risk_lookup. repeat case_bool_decide; set_solver.
Qed.

Lemma payer_risk_of_bounds (payer_name : cell) :
  0.2 <= payer_risk_of payer_name <= 0.6.
Proof.
  pose proof (payer_risk_of_values payer_name) as H.
  repeat (apply elem_of_cons in H as [-> | H]; [split; by vm_compute |]).
  by apply elem_of_nil in H.
Qed.

Lemma risk_of_bounds (status : cell) : 0.5 <= risk_of status <= 1.
Proof. unfold risk_of. destruct (cell_eq_str _ _); split; by vm_compute. Qed.

(** X6.  For a record whose [aging_days] lie between 0 and 90, as those of
    the mock frame do, the clamp of line 75 does nothing: the score is the
    weighted sum itself, which stays away from both ends of the clamp,
    between 0.2 and 0.9. *)
Theorem priority_score_unclamped (aging_days : Q) (payer_name status : cell) :
  0 <= aging_days <= 90 →
  ∃ (df : DataFrame) (score : Q),
    calculate_priority (one_record aging_days payer_name status)
    = Ok (df, [CNum score]) ∧
    score == aging_days / 90 * 0.4 + payer_risk_of payer_name * 0.3
             + risk_of status * 0.3 ∧
    0.2 <= score <= 0.9.
Proof.
  intros Ha. eexists _, _. split.
  { rewrite calculate_priority_rows; [reflexivity | ..].
    - solve_elem.
    - solve_elem.
    - solve_elem.
    - constructor; [by eexists | constructor]. }
  change (num_of (cell_at "aging_days" _)) with aging_days.
  change (cell_at "payer_name" _) with payer_name.
  change (cell_at "status" _) with status.
  pose proof (payer_risk_of_bounds payer_name) as Hp.
  pose proof (risk_of_bounds status) as Hr.
  unfold priority_score.
  set (x := aging_days / 90 * 0.4 + payer_risk_of payer_name * 0.3
            + risk_of status * 0.3).
  assert (0.21 <= x <= 0.88) as Hx.
  { subst x. rewrite Qdiv_90. lra. }
  destruct (clip_unit x) as (_ & H01 & _). rewrite H01 by lra.
  split; [reflexivity | lra].
Qed.

Lemma priority_score_unclamped_witness :
  ∃ (df : DataFrame) (score : Q),
    calculate_priority (one_record 90 (CStr "Aetna") (CStr "denied"))
    = Ok (df, [CNum score]) ∧
    0.2 <= score <= 0.9.
Proof.
  destruct (priority_score_unclamped 90 (CStr "Aetna") (CStr "denied"))
    as (df & score & Hrun & _ & Hscore).
  - split; by vm_compute.
  - by exists df, score.
Defined.

(** X7.  [calculate_priority] changes one column of the frame it is
    given, [payer_risk], and nothing else; the value it writes is one of
    0.2, 0.3, 0.4, 0.5, 0.6, and it is 0.3 whenever the payer is not a
    text (a number, a missing value). *)
Theorem payer_risk_column (df : DataFrame) :
  "payer_name" ∈ columns df → "status" ∈ columns df →
  "aging_days" ∈ columns df →
  Forall (numeric_at "aging_days") (rows df) →
  ∃ df' score,
    calculate_priority df = Ok (df', score) ∧
    columns df' = {["payer_risk"]} ∪ columns df ∧
    (∀ c : string, c ≠ "payer_risk" →
       map (cell_at c) (rows df') = map (cell_at c) (rows df)) ∧
    Forall (fun r : dict =>
              ∃ v : Q,
                cell_at "payer_risk" r = CNum v ∧
                v ∈ [0.2; 0.3; 0.4; 0.5; 0.6] ∧
                ((∀ p, cell_at "payer_name" r ≠ CStr p) → v = 0.3))
      (rows df').
Proof.
  intros Hp Hs Ha Hnum. eexists _, _.
  split; [by apply calculate_priority_rows |]. cbn [rows columns].
  split; [done |]. split.
  - intros c Hc. rewrite map_map. apply map_ext. intros r.
    unfold with_payer_risk. by rewrite cell_at_insert_ne.
  - apply Forall_fmap, Forall_forall. intros r _. unfold compose, with_payer_risk.
    rewrite cell_at_insert, cell_at_insert_ne by done.
    eexists. split; [done |]. split; [apply payer_risk_of_values |].
    intros Hnot. destruct (cell_at "payer_name" r); try done.
    by destruct (Hnot s).
Qed.

Lemma payer_risk_column_witness :
  ∃ df' score,
    calculate_priority (one_record 10 (CNum 7) (CStr "open")) = Ok (df', score) ∧
    map (cell_at "payer_risk") (rows df') = [CNum 0.3].
Proof.
  destruct (payer_risk_column (one_record 10 (CNum 7) (CStr "open")))
    as (df' & score & Hrun & _ & _ & Hrows).
  - solve_elem.
  - solve_elem.
  - solve_elem.
  - constructor; [by eexists | constructor].
  - exists df', score. split; [exact Hrun |].
    rewrite calculate_priority_rows in Hrun;
      [| solve_elem | solve_elem | solve_elem
       | constructor; [by eexists | constructor]].
    injection Hrun as <- _. reflexivity.
Defined.

(** X8.  On a frame that lacks one of the columns it reads,
    [calculate_priority] raises the [KeyError] of the first one missing
    in the order [payer_name], [status], [aging_days]. *)
Theorem calculate_priority_missing_column (df : DataFrame) (i : nat) (c : string) :
  list_find (fun c => c ∉ columns df) ["payer_name"; "status"; "aging_days"]
  = Some (i, c) →
  calculate_priority df = Raise (KeyError c).
Proof.
  intros Hfind. unfold calculate_priority. cbn in Hfind.
  destruct (decide ("payer_name" ∉ columns df)) as [Hp | Hp].
  { injection Hfind as _ <-. rewrite getcol_notin by done. reflexivity. }
  apply dec_stable in Hp. rewrite getcol_in by done. cbn [mbind result_bind].
  unfold fillna, series_map. rewrite !map_map, setcol_map.
  cbn [mbind result_bind].
  destruct (decide ("status" ∉ columns df)) as [Hs | Hs].
  { cbn in Hfind. injection Hfind as _ <-.
    rewrite (getcol_notin _ "status"); [reflexivity |]. cbn. set_solver. }
  apply dec_stable in Hs. rewrite (getcol_in _ "status") by (cbn; set_solver).
  cbn [mbind result_bind].
  destruct (decide ("aging_days" ∉ columns df)) as [Ha | Ha]; [| done].
  cbn in Hfind. injection Hfind as _ <-.
  rewrite (getcol_notin _ "aging_days"); [reflexivity |]. cbn. set_solver.
Qed.

Lemma calculate_priority_missing_column_witness :
  calculate_priority
    (DataFrame_of [<["payer_name" := CStr "Aetna"]> (<["aging_days" := CNum 3]> ∅)])
  = Raise (KeyError "status").
Proof.
  apply (calculate_priority_missing_column _ 1%nat). reflexivity.
Defined.

(** ** The metrics *)

Lemma numeric_values_map {A} (f : A → Q) (l : list A) :
  numeric_values (map (fun x => CNum (f x)) l) = Ok (map f l).
Proof. induction l as [|x l IH]; [done |]. cbn. by rewrite IH. Qed.

Lemma numeric_column (c : string) (l : list dict) :
  Forall (numeric_at c) l →
  map (cell_at c) l = map (fun r => CNum (num_of (cell_at c r))) l.
Proof.
  induction 1 as [|r l [q Hq] _ IH]; [done |]. cbn. by rewrite IH, Hq.
Qed.

Lemma Qsum_scaled (k : Q) (l : list Q) :
  Qsum (map (fun x => x * k) l) == k * Qsum l.
Proof.
  induction l as [|x l IH].
  - change (0 == k * 0). ring.
  - change (x * k + Qsum (map (fun x => x * k) l) == k * (x + Qsum l)).
    rewrite IH. ring.
Qed.

Lemma key_metrics_rows (df : DataFrame) :
  "outstanding" ∈ columns df → "aging_days" ∈ columns df →
  Forall (numeric_at "outstanding") (rows df) →
  Forall (numeric_at "aging_days") (rows df) →
  key_metrics df
  = Ok (mkMetrics
          (Qsum (map (fun r => num_of (cell_at "outstanding" r)) (rows df)))
          (length (rows df))
          (match rows df with
           | [] => CNaN
           | _ => CNum (Qsum (map (fun r => num_of (cell_at "aging_days" r)) (rows df))
                        / inject_Z (Z.of_nat (length (rows df))))
           end)
          (Qsum (map (fun r => num_of (cell_at "outstanding" r) * 0.8) (rows df)))).
Proof.
  intros Ho Ha Hno Hna. unfold key_metrics, series_sum, series_mean, len.
  rewrite !getcol_in by done.
  rewrite (numeric_column "outstanding"), (numeric_column "aging_days") by done.
  cbn [mbind result_bind]. rewrite !numeric_values_map.
  cbn [mbind result_bind mret result_ret]. unfold series_scalar.
  rewrite (mapM_map_Ok _ _
             (fun r => CNum (num_of (cell_at "outstanding" r) * 0.8)));
    [| by apply Forall_forall].
  cbn [mbind result_bind]. rewrite numeric_values_map.
  cbn [mbind result_bind]. rewrite length_map.
  by destruct (rows df).
Qed.

Lemma Qsum_nonneg (l : list Q) : Forall (fun x => 0 <= x) l → 0 <= Qsum l.
Proof.
  induction 1 as [|x l Hx _ IH]; [by vm_compute |].
  change (0 <= x + Qsum l). lra.
Qed.

(** X9.  On a frame whose [aging_days] are numbers and whose [outstanding]
    are numbers that are not negative, as the filter leaves them, the
    metrics are defined, and Recovery Potential lies between 0 and
    Total AR. *)
Theorem recovery_within_total (df : DataFrame) :
  "outstanding" ∈ columns df → "aging_days" ∈ columns df →
  Forall (fun r => ∃ x, cell_at "outstanding" r = CNum x ∧ 0 <= x) (rows df) →
  Forall (numeric_at "aging_days") (rows df) →
  ∃ m : metrics,
    key_metrics df = Ok m ∧
    0 <= recovery_potential m ∧
    recovery_potential m <= total_ar m.
Proof.
  intros Ho Ha Hpos Hna.
  assert (Forall (numeric_at "outstanding") (rows df)) as Hno.
  { eapply Forall_impl; [exact Hpos |]. intros r (x & Hx & _). by exists x. }
  eexists. split; [by apply key_metrics_rows |].
  cbn [total_ar recovery_potential].
  set (l := map (fun r => num_of (cell_at "outstanding" r)) (rows df)).
  assert (0 <= Qsum l) as Hsum.
  { apply Qsum_nonneg. subst l. apply Forall_fmap.
    eapply Forall_impl; [exact Hpos |]. intros r (x & Hx & H0).
    unfold compose. by rewrite Hx. }
  assert (Qsum (map (fun r => num_of (cell_at "outstanding" r) * 0.8) (rows df))
          == 0.8 * Qsum l) as ->.
  { rewrite <- Qsum_scaled. subst l. by rewrite map_map. }
  lra.
Qed.

Lemma recovery_within_total_witness :
  ∃ m : metrics,
    key_metrics tie_frame_outstanding = Ok m ∧
    recovery_potential m <= total_ar m.
Proof.
  destruct (recovery_within_total tie_frame_outstanding)
    as (m & Hrun & _ & Hrec).
  - solve_elem.
  - solve_elem.
  - repeat (apply Forall_cons; split; [eexists; split; [reflexivity | by vm_compute] |]).
    by constructor.
  - repeat (apply Forall_cons; split; [by eexists |]). by constructor.
  - by exists m.
Defined.

(** ** The filter, applied again and followed by the metrics *)

Lemma filter_bool_sublist {A} (f : A → bool) (l : list A) :
  List.filter f l `sublist_of` l.
Proof.
  induction l as [|x l IH]; [constructor |]. cbn.
  destruct (f x); by constructor.
Qed.

Lemma filter_bool_all {A} (f : A → bool) (l : list A) :
  Forall (fun x => f x = true) (List.filter f l).
Proof.
  induction l as [|x l IH]; [constructor |]. cbn.
  destruct (f x) eqn:E; [by constructor | done].
Qed.

Lemma filter_bool_refine {A} (f g : A → bool) (l : list A) :
  (∀ x, g x = true → f x = true) →
  List.filter g (List.filter f l) = List.filter g l.
Proof.
  intros Hgf. rewrite filter_filter_andb. apply filter_ext. intros x.
  destruct (g x) eqn:E; [by rewrite Hgf | by rewrite andb_false_r].
Qed.

Lemma kept_mono (mp mp' : Q) (r : dict) :
  mp <= mp' → kept mp' r = true → kept mp r = true.
Proof.
  unfold kept. intros Hle [H1 H2]%andb_true_iff. rewrite H2, andb_true_r.
  apply Qle_bool_iff. apply Qle_bool_iff in H1. lra.
Qed.

(** X10.  The filter is idempotent and only removes rows: it returns a
    subsequence of the rows it is given, and applied to its own result it
    returns that result. *)
Theorem threshold_filter_idempotent (min_priority : Q) (df : DataFrame) :
  "priority_score" ∈ columns df → "outstanding" ∈ columns df →
  Forall (numeric_at "priority_score") (rows df) →
  Forall (numeric_at "outstanding") (rows df) →
  ∃ df',
    threshold_filter min_priority df = Ok df' ∧
    rows df' `sublist_of` rows df ∧
    threshold_filter min_priority df' = Ok df'.
Proof.
  intros Hp Ho Hnp Hno. eexists.
  split; [by apply threshold_filter_rows |]. cbn [rows].
  split; [apply filter_bool_sublist |].
  rewrite threshold_filter_rows; cbn [rows columns];
    [| done | done | by apply Forall_filter_bool ..].
  by rewrite filter_bool_refine.
Qed.

Lemma threshold_filter_idempotent_witness :
  ∃ df',
    threshold_filter 0.3 tie_frame_outstanding = Ok df' ∧
    threshold_filter 0.3 df' = Ok df' ∧ len df' = 2%nat.
Proof.
  destruct (threshold_filter_idempotent 0.3 tie_frame_outstanding)
    as (df' & Hrun & _ & Hagain).
  - solve_elem.
  - solve_elem.
  - repeat (apply Forall_cons; split; [by eexists |]). by constructor.
  - repeat (apply Forall_cons; split; [by eexists |]). by constructor.
  - exists df'. split; [exact Hrun |]. split; [exact Hagain |].
    rewrite threshold_filter_rows in Hrun;
      [| solve_elem | solve_elem
       | repeat (apply Forall_cons; split; [by eexists |]); by constructor
       | repeat (apply Forall_cons; split; [by eexists |]); by constructor].
    injection Hrun as <-. reflexivity.
Defined.

(** X11.  Raising the slider can be done on the filtered frame: for
    thresholds [lo <= hi], filtering at [hi] what was kept at [lo] gives
    the same frame as filtering the fetched frame at [hi], and that frame
    is a subsequence of the one kept at [lo]. *)
Theorem threshold_filter_raised (lo hi : Q) (df : DataFrame) :
  lo <= hi →
  "priority_score" ∈ columns df → "outstanding" ∈ columns df →
  Forall (numeric_at "priority_score") (rows df) →
  Forall (numeric_at "outstanding") (rows df) →
  ∃ df_lo df_hi,
    threshold_filter lo df = Ok df_lo ∧
    threshold_filter hi df = Ok df_hi ∧
    threshold_filter hi df_lo = Ok df_hi ∧
    rows df_hi `sublist_of` rows df_lo.
Proof.
  intros Hle Hp Ho Hnp Hno. eexists _, _.
  split; [by apply threshold_filter_rows |].
  split; [by apply threshold_filter_rows |].
  assert (List.filter (kept hi) (List.filter (kept lo) (rows df))
          = List.filter (kept hi) (rows df)) as Heq.
  { apply filter_bool_refine. intros r. by apply kept_mono. }
  split.
  - rewrite threshold_filter_rows; cbn [rows columns];
      [| done | done | by apply Forall_filter_bool ..].
    by rewrite Heq.
  - cbn [rows]. rewrite <- Heq. apply filter_bool_sublist.
Qed.

Lemma threshold_filter_raised_witness :
  ∃ df_lo df_hi,
    threshold_filter 0.2 tie_frame_outstanding = Ok df_lo ∧
    threshold_filter 0.3 df_lo = Ok df_hi ∧
    threshold_filter 0.3 tie_frame_outstanding = Ok df_hi.
Proof.
  destruct (threshold_filter_raised 0.2 0.3 tie_frame_outstanding)
    as (df_lo & df_hi & Hlo & Hhi & Hboth & _).
  - by vm_compute.
  - solve_elem.
  - solve_elem.
  - repeat (apply Forall_cons; split; [by eexists |]). by constructor.
  - repeat (apply Forall_cons; split; [by eexists |]). by constructor.
  - by exists df_lo, df_hi.
Defined.

Lemma Qsum_pos (l : list Q) :
  Forall (fun x => 0 < x) l → 0 <= Qsum l ∧ (Qsum l == 0 → l = []).
Proof.
  induction 1 as [|x l Hx _ [IH _]].
  - split; [by vm_compute | done].
  - change (Qsum (x :: l)) with (x + Qsum l). split; [lra |].
    intros H. lra.
Qed.

(** X12.  After the filter the metrics are always defined, and they tell
    an emptied table apart: Total AR is never negative, and it is 0, as
    Avg DSO is [NaN] and Open Accounts 0, exactly when the filter has kept
    no row. *)
Theorem metrics_after_filter (min_priority : Q) (df : DataFrame) :
  "priority_score" ∈ columns df → "outstanding" ∈ columns df →
  "aging_days" ∈ columns df →
  Forall (numeric_at "priority_score") (rows df) →
  Forall (numeric_at "outstanding") (rows df) →
  Forall (numeric_at "aging_days") (rows df) →
  ∃ (df' : DataFrame) (m : metrics),
    threshold_filter min_priority df = Ok df' ∧
    key_metrics df' = Ok m ∧
    0 <= total_ar m ∧
    (total_ar m == 0 ↔ rows df' = []) ∧
    (avg_dso m = CNaN ↔ rows df' = []) ∧
    (total_accounts m = 0%nat ↔ rows df' = []).
Proof.
  intros Hp Ho Ha Hnp Hno Hna. eexists _, _.
  split; [by apply threshold_filter_rows |].
  split.
  { apply key_metrics_rows; cbn [rows columns];
      [done | done | by apply Forall_filter_bool ..]. }
  cbn [rows total_ar avg_dso total_accounts].
  set (l := List.filter (kept min_priority) (rows df)).
  assert (Forall (fun x => 0 < x)
            (map (fun r => num_of (cell_at "outstanding" r)) l)) as Hpos.
  { apply Forall_fmap. eapply Forall_impl; [apply filter_bool_all |].
    intros r [_ H]%andb_true_iff. by apply Qlt_bool_iff. }
  destruct (Qsum_pos _ Hpos) as [Hge Hzero].
  split; [done |]. split; [| split].
  - split; [| by intros ->].
    intros H. apply Hzero in H. by destruct l.
  - by destruct l.
  - by destruct l.
Qed.

Lemma metrics_after_filter_witness :
  ∃ (df' : DataFrame) (m : metrics),
    threshold_filter 0.9 tie_frame_outstanding = Ok df' ∧
    key_metrics df' = Ok m ∧ avg_dso m = CNaN.
Proof.
  destruct (metrics_after_filter 0.9 tie_frame_outstanding)
    as (df' & m & Hrun & Hm & _ & _ & Havg & _).
  - solve_elem.
  - solve_elem.
  - solve_elem.
  - repeat (apply Forall_cons; split; [by eexists |]). by constructor.
  - repeat (apply Forall_cons; split; [by eexists |]). by constructor.
  - repeat (apply Forall_cons; split; [by eexists |]). by constructor.
  - exists df', m. split; [exact Hrun |]. split; [exact Hm |].
    apply Havg.
    rewrite threshold_filter_rows in Hrun;
      [| solve_elem | solve_elem
       | repeat (apply Forall_cons; split; [by eexists |]); by constructor
       | repeat (apply Forall_cons; split; [by eexists |]); by constructor].
    injection Hrun as <-. reflexivity.
Defined.

(** ** The table of prioritized accounts *)

(** The rounding of line 113 picks a nearest integer, and the even one of
    two. *)
Lemma round_half_even_spec (x : Q) :
  let r := round_half_even x in
  (inject_Z r - (1 # 2) < x ∧ x < inject_Z r + (1 # 2))
  ∨ ((x == inject_Z r - (1 # 2) ∨ x == inject_Z r + (1 # 2)) ∧ Z.even r = true).
Proof.
  destruct x as [n d]. unfold round_half_even. cbn [Qnum Qden].
  pose proof (Z.div_mod n (Z.pos d) ltac:(done)) as Hdm.
  pose proof (Z.mod_pos_bound n (Z.pos d) ltac:(done)) as Hm.
  set (f := (n / Z.pos d)%Z) in *. set (m := (n mod Z.pos d)%Z) in *.
  assert (∀ z : Z,
            ((inject_Z z - (1 # 2) < n # d ↔ (2 * z * Z.pos d - Z.pos d < 2 * n)%Z)
             ∧ (n # d < inject_Z z + (1 # 2) ↔ (2 * n < 2 * z * Z.pos d + Z.pos d)%Z))
            ∧ ((n # d == inject_Z z - (1 # 2) ↔ (2 * n = 2 * z * Z.pos d - Z.pos d)%Z)
               ∧ (n # d == inject_Z z + (1 # 2) ↔ (2 * n = 2 * z * Z.pos d + Z.pos d)%Z)))
    as Hz.
  { intros z. unfold Qlt, Qeq, Qminus, Qplus, Qopp, inject_Z. cbn.
    repeat split; lia. }
  destruct (Z.ltb_spec (2 * m) (Z.pos d)) as [H1 | H1].
  { left. split; apply Hz; nia. }
  destruct (Z.ltb_spec (Z.pos d) (2 * m)) as [H2 | H2].
  { left. split; apply Hz; nia. }
  right. destruct (Z.even f) eqn:Heven.
  - split; [| done]. right. apply Hz. nia.
  - split.
    + left. apply Hz. nia.
    + rewrite Z.even_add, Heven. done.
Qed.

Lemma round_half_even_mono (x y : Q) :
  x <= y → (round_half_even x ≤ round_half_even y)%Z.
Proof.
  intros Hxy. destruct (Z.le_gt_cases (round_half_even x) (round_half_even y))
    as [H | H]; [done | exfalso].
  pose proof (round_half_even_spec x) as Hx.
  pose proof (round_half_even_spec y) as Hy. cbn zeta in Hx, Hy.
  set (a := round_half_even x) in *. set (b := round_half_even y) in *.
  assert (inject_Z b + 1 <= inject_Z a) as Hab.
  { change (inject_Z b + inject_Z 1 <= inject_Z a).
    rewrite <- inject_Z_plus, <- Zle_Qle. lia. }
  destruct Hx as [[Hx1 Hx2] | [Hx Hxe]].
  - destruct Hy as [[Hy1 Hy2] | [[Hy | Hy] _]]; lra.
  - destruct Hy as [[Hy1 Hy2] | [Hy Hye]]; [destruct Hx; lra |].
    assert (a = b + 1)%Z as ->.
    { apply Z.le_antisymm; [| lia].
      destruct (Z.le_gt_cases a (b + 1)) as [? | Hgt]; [done | exfalso].
      assert (inject_Z b + 2 <= inject_Z a).
      { change (inject_Z b + inject_Z 2 <= inject_Z a).
        rewrite <- inject_Z_plus, <- Zle_Qle. lia. }
      destruct Hx, Hy; lra. }
    rewrite Z.even_add in Hxe. rewrite Hye in Hxe. done.
Qed.

Lemma StronglySorted_take {A} (R : A → A → Prop) (n : nat) (l : list A) :
  StronglySorted R l → StronglySorted R (take n l).
Proof.
  intros H. revert n. induction H as [|x l _ IH Hx]; intros [|n]; cbn;
    try constructor; [apply IH | by apply Forall_take].
Qed.

Lemma round_half_even_inject_Z (z : Z) : round_half_even (inject_Z z) = z.
Proof.
  unfold round_half_even, inject_Z. cbn [Qnum Qden].
  rewrite Z.mod_1_r, Z.div_1_r. done.
Qed.

Lemma round_half_even_le (x : Q) (z : Z) :
  x <= inject_Z z → (round_half_even x ≤ z)%Z.
Proof.
  intros H. rewrite <- (round_half_even_inject_Z z). by apply round_half_even_mono.
Qed.

Lemma round_half_even_ge (x : Q) (z : Z) :
  inject_Z z <= x → (z ≤ round_half_even x)%Z.
Proof.
  intros H. rewrite <- (round_half_even_inject_Z z) at 1.
  by apply round_half_even_mono.
Qed.

Lemma pow2_pos (k : Z) : 0 < 2 ^ k.
Proof. by apply Qpower_0_lt. Qed.

Lemma pow2_succ (k : Z) : 2 ^ (k + 1) == 2 * 2 ^ k.
Proof. rewrite Qpower_plus by done. change (2 ^ 1) with 2. ring. Qed.

Lemma pow2_plus (a b : Z) : 2 ^ (a + b) == 2 ^ a * 2 ^ b.
Proof. by apply Qpower_plus. Qed.

Lemma pow2_le (a b : Z) : (a ≤ b)%Z → 2 ^ a <= 2 ^ b.
Proof. intros H. by apply Qpower_le_compat_l. Qed.

Lemma pow2_inject (a : Z) : (0 ≤ a)%Z → inject_Z (2 ^ a) == 2 ^ a.
Proof. intros H. by rewrite Zpower_Qpower. Qed.

Lemma Qlog2_spec (x : Q) :
  0 < x → 2 ^ Qlog2 x <= x ∧ x < 2 ^ (Qlog2 x + 1).
Proof.
  intros Hx. unfold Qlog2.
  destruct x as [n d]. cbn [Qnum Qden].
  assert (0 < n)%Z as Hn by (unfold Qlt in Hx; cbn in Hx; lia).
  set (a := Z.log2 n). set (b := Z.log2 (Z.pos d)).
  destruct (Z.log2_spec n Hn) as [Ha1 Ha2]. fold a in Ha1, Ha2.
  destruct (Z.log2_spec (Z.pos d) ltac:(done)) as [Hb1 Hb2]. fold b in Hb1, Hb2.
  pose proof (Z.log2_nonneg n) as Ha0. fold a in Ha0.
  pose proof (Z.log2_nonneg (Z.pos d)) as Hb0. fold b in Hb0.
  set (A := 2 ^ a). set (B := 2 ^ b).
  set (N := inject_Z n). set (D := inject_Z (Z.pos d)).
  assert (A <= N ∧ N < 2 * A) as [HA1 HA2].
  { subst A N. rewrite <- (pow2_succ a), <- !pow2_inject by lia.
    rewrite <- Zle_Qle, <- Zlt_Qlt. rewrite <- Z.add_1_r in Ha2. done. }
  assert (B <= D ∧ D < 2 * B) as [HB1 HB2].
  { subst B D. rewrite <- (pow2_succ b), <- !pow2_inject by lia.
    rewrite <- Zle_Qle, <- Zlt_Qlt. rewrite <- Z.add_1_r in Hb2. done. }
  assert (0 < A) as HA0 by apply pow2_pos.
  assert (0 < B) as HB0 by apply pow2_pos.
  set (x := n # d) in *.
  assert (x * D == N) as Hxd.
  { subst x D N. rewrite (Qmake_Qdiv n d). field.
    intros H. unfold Qeq in H. cbn in H. lia. }
  set (P := 2 ^ (a - b)).
  assert (P * B == A) as HP.
  { subst P A B. rewrite <- pow2_plus. by replace (a - b + b)%Z with a by lia. }
  assert (0 < P) as HP0 by apply pow2_pos.
  destruct (Qle_bool P x) eqn:E.
  - apply Qle_bool_iff in E. split; [done |]. rewrite pow2_succ. fold P.
    apply Qnot_le_lt. intros Hc. nra.
  - assert (x < P) as Hlt.
    { apply Qnot_le_lt. intros Hc. apply Qle_bool_iff in Hc. congruence. }
    replace (a - b - 1 + 1)%Z with (a - b)%Z by lia. fold P. split; [| done].
    assert (2 * 2 ^ (a - b - 1) == P) as HP2.
    { subst P. rewrite <- pow2_succ. by replace (a - b - 1 + 1)%Z with (a - b)%Z by lia. }
    apply Qnot_lt_le. intros Hc. nra.
Qed.

Lemma Qlog2_mono (x y : Q) : 0 < x → x <= y → (Qlog2 x ≤ Qlog2 y)%Z.
Proof.
  intros Hx Hxy. destruct (Qlog2_spec x Hx) as [H1 _].
  destruct (Qlog2_spec y ltac:(lra)) as [_ H2].
  assert (2 ^ Qlog2 x < 2 ^ (Qlog2 y + 1)) as H by lra.
  apply Qpower_lt_compat_l_inv in H; [lia | done].
Qed.

Lemma binary64_exponent_mono (x y : Q) :
  0 < x → x <= y → (binary64_exponent x ≤ binary64_exponent y)%Z.
Proof.
  intros Hx Hxy. unfold binary64_exponent.
  pose proof (Qlog2_mono x y Hx Hxy). lia.
Qed.

Lemma binary64_significand (x : Q) :
  0 < x →
  let e := binary64_exponent x in
  x / 2 ^ e <= 2 ^ 53 ∧ ((-1074 < e)%Z → 2 ^ 52 <= x / 2 ^ e).
Proof.
  intros Hx e. destruct (Qlog2_spec x Hx) as [H1 H2].
  pose proof (pow2_pos e) as He.
  split.
  - apply Qle_shift_div_r; [done |]. rewrite <- pow2_plus.
    apply Qlt_le_weak. eapply Qlt_le_trans; [exact H2 |].
    apply pow2_le. subst e. unfold binary64_exponent. lia.
  - intros Hn. apply Qle_shift_div_l; [done |]. rewrite <- pow2_plus.
    eapply Qle_trans; [| exact H1].
    apply pow2_le. subst e. unfold binary64_exponent in *. lia.
Qed.

Lemma binary64_abs_bounds (x : Q) :
  0 < x →
  let e := binary64_exponent x in
  binary64_abs x <= 2 ^ (53 + e)
  ∧ ((-1074 < e)%Z → 2 ^ (52 + e) <= binary64_abs x).
Proof.
  intros Hx e. destruct (binary64_significand x Hx) as [H1 H2]. fold e in H1, H2.
  pose proof (pow2_pos e) as He. unfold binary64_abs. fold e.
  split.
  - rewrite pow2_plus. apply Qmult_le_compat_r; [| lra].
    rewrite <- (pow2_inject 53) by lia. rewrite <- Zle_Qle.
    apply round_half_even_le. by rewrite (pow2_inject 53) by lia.
  - intros Hn. rewrite pow2_plus. apply Qmult_le_compat_r; [| lra].
    rewrite <- (pow2_inject 52) by lia. rewrite <- Zle_Qle.
    apply round_half_even_ge. rewrite (pow2_inject 52) by lia. auto.
Qed.

Lemma binary64_abs_nonneg (x : Q) : 0 <= x → 0 <= binary64_abs x.
Proof.
  intros Hx. unfold binary64_abs. pose proof (pow2_pos (binary64_exponent x)) as He.
  apply Qmult_le_0_compat; [| lra].
  change 0 with (inject_Z 0). rewrite <- Zle_Qle.
  apply round_half_even_ge. change (inject_Z 0) with 0.
  apply Qle_shift_div_l; [done |]. lra.
Qed.

Lemma binary64_abs_mono (x y : Q) :
  0 <= x → x <= y → binary64_abs x <= binary64_abs y.
Proof.
  intros Hx0 Hxy.
  destruct (Qlt_le_dec 0 x) as [Hx | Hx].
  2:{ assert (binary64_abs x == 0) as ->; [| apply binary64_abs_nonneg; lra].
      unfold binary64_abs. set (e := binary64_exponent x).
      pose proof (pow2_pos e) as He.
      assert (round_half_even (x / 2 ^ e) = 0%Z) as ->; [| ring].
      assert (x / 2 ^ e == 0) as Hz.
      { assert (x == 0) as -> by lra. field. lra. }
      apply Z.le_antisymm.
      - apply round_half_even_le. by rewrite Hz.
      - apply round_half_even_ge. by rewrite Hz. }
  pose proof (binary64_exponent_mono x y Hx Hxy) as Hexp.
  destruct (Z.eq_dec (binary64_exponent x) (binary64_exponent y)) as [Heq | Hne].
  - unfold binary64_abs. rewrite <- Heq. set (e := binary64_exponent x).
    pose proof (pow2_pos e) as He.
    apply Qmult_le_compat_r; [| lra]. rewrite <- Zle_Qle.
    apply round_half_even_mono. apply Qmult_le_compat_r; [done |].
    apply Qlt_le_weak, Qinv_lt_0_compat. done.
  - destruct (binary64_abs_bounds x Hx) as [Hhi _].
    destruct (binary64_abs_bounds y ltac:(lra)) as [_ Hlo].
    assert (-1074 < binary64_exponent y)%Z as Hn.
    { unfold binary64_exponent in *. lia. }
    eapply Qle_trans; [exact Hhi |]. eapply Qle_trans; [| exact (Hlo Hn)].
    apply pow2_le. lia.
Qed.

Lemma binary64_mono (x y : Q) : x <= y → binary64 x <= binary64 y.
Proof.
  intros Hxy. unfold binary64.
  destruct (Qle_bool 0 x) eqn:Ex; destruct (Qle_bool 0 y) eqn:Ey.
  - apply Qle_bool_iff in Ex. by apply binary64_abs_mono.
  - apply Qle_bool_iff in Ex.
    assert (¬ 0 <= y) as Hy by (rewrite <- Qle_bool_iff; congruence). lra.
  - apply Qle_bool_iff in Ey.
    assert (¬ 0 <= x) as Hx by (rewrite <- Qle_bool_iff; congruence).
    pose proof (binary64_abs_nonneg (- x) ltac:(lra)).
    pose proof (binary64_abs_nonneg y Ey). lra.
  - assert (¬ 0 <= x) as Hx by (rewrite <- Qle_bool_iff; congruence).
    assert (¬ 0 <= y) as Hy by (rewrite <- Qle_bool_iff; congruence).
    pose proof (binary64_abs_mono (- y) (- x) ltac:(lra) ltac:(lra)). lra.
Qed.

Lemma percent_of_mono (x y : Q) : x <= y → (percent_of x ≤ percent_of y)%Z.
Proof.
  intros Hxy. unfold percent_of. apply round_half_even_mono, binary64_mono.
  pose proof (binary64_mono x y Hxy). lra.
Qed.

Lemma percent_of_range (x : Q) : 0 <= x <= 1 → (0 ≤ percent_of x ≤ 100)%Z.
Proof.
  intros [H0 H1]. unfold percent_of.
  pose proof (binary64_mono 0 x H0) as Hlo.
  pose proof (binary64_mono x 1 H1) as Hhi.
  assert (binary64 0 == 0) as E0 by reflexivity.
  assert (binary64 1 == 1) as E1 by reflexivity.
  assert (binary64 100 == 100) as E100 by reflexivity.
  rewrite E0 in Hlo. rewrite E1 in Hhi.
  pose proof (binary64_mono 0 (binary64 x * 100) ltac:(lra)) as Hlo'.
  pose proof (binary64_mono (binary64 x * 100) 100 ltac:(lra)) as Hhi'.
  rewrite E0 in Hlo'. rewrite E100 in Hhi'.
  split; [by apply round_half_even_ge | by apply round_half_even_le].
Qed.

Lemma top_row_score (r : dict) :
  cell_at "priority_score" (top_row r)
  = CNum (inject_Z (percent_of (num_of (cell_at "priority_score" r)))).
Proof.
  unfold top_row. rewrite !cell_at_insert_ne by done. by rewrite cell_at_insert.
Qed.

(** X13.  The table of prioritized accounts has the ten first rows of
    the sorted frame, or all of them when there are fewer, and the columns
    of the frame with [aging_bucket] and [next_action] added; the
    percentages it shows are integers in descending order, and they lie
    between 0 and 100 when the scores lie between 0 and 1. *)
Theorem top_ten_table (sort : list (cell * dict) → list (cell * dict))
    (df : DataFrame) :
  sorts_descending sort →
  "priority_score" ∈ columns df → "aging_days" ∈ columns df →
  Forall (numeric_at "priority_score") (rows df) →
  Forall (numeric_at "aging_days") (rows df) →
  ∃ (priority_df : DataFrame) (pct : list Z),
    prioritized_accounts sort df = Ok priority_df ∧
    len priority_df = Nat.min 10 (len df) ∧
    columns priority_df = {["next_action"; "aging_bucket"]} ∪ columns df ∧
    getcol priority_df "priority_score"
    = Ok (map (fun z => CNum (inject_Z z)) pct) ∧
    StronglySorted (fun a b : Z => (b ≤ a)%Z) pct ∧
    (Forall (fun r => 0 <= num_of (cell_at "priority_score" r) <= 1) (rows df) →
     Forall (fun z => (0 ≤ z ≤ 100)%Z) pct).
Proof.
  intros Hsort Hp Ha Hnp Hna.
  destruct (sorted_rows_spec sort df Hsort Hnp) as [Hperm Hsorted].
  eexists _, (map (fun r => percent_of (num_of (cell_at "priority_score" r)))
                (take 10 (sorted_rows sort df))).
  split.
  { apply prioritized_accounts_rows; [done | done | |]; by rewrite Hperm. }
  split.
  { unfold len. cbn [rows].
    by rewrite length_map, length_take, (Permutation_length Hperm). }
  split; [cbn [columns]; set_solver |].
  split.
  { rewrite getcol_in by (cbn; set_solver). cbn [rows].
    rewrite !map_map. f_equal. apply map_ext. intros r. apply top_row_score. }
  split.
  - apply (StronglySorted_map by_score _ (fun _ => True));
      [| by apply Forall_forall | by apply StronglySorted_take].
    intros r r' _ _ Hrr'. by apply percent_of_mono.
  - intros Hrange. apply Forall_fmap, Forall_take. rewrite Hperm.
    eapply Forall_impl; [exact Hrange |]. intros r Hr.
    by apply percent_of_range.
Qed.

Lemma top_ten_table_witness :
  ∃ (priority_df : DataFrame) (pct : list Z),
    prioritized_accounts sort_stable tie_frame_outstanding = Ok priority_df ∧
    len priority_df = 3%nat ∧
    Forall (fun z => (0 ≤ z ≤ 100)%Z) pct.
Proof.
  destruct (top_ten_table sort_stable tie_frame_outstanding)
    as (priority_df & pct & Hrun & Hlen & _ & _ & _ & Hrange).
  - apply sort_stable_descending.
  - solve_elem.
  - solve_elem.
  - repeat (apply Forall_cons; split; [by eexists |]). by constructor.
  - repeat (apply Forall_cons; split; [by eexists |]). by constructor.
  - exists priority_df, pct. split; [exact Hrun |]. split; [exact Hlen |].
    apply Hrange.
    repeat (apply Forall_cons; split; [split; by vm_compute |]). by constructor.
Defined.

(** X14.  In the table, the bucket and the action of a row agree: the
    action is "Escalate to Collector" exactly when the bucket is "61-90"
    or "90+"; and a row has no bucket exactly when its [aging_days] are
    0 or less. *)
Theorem bucket_and_action_agree (sort : list (cell * dict) → list (cell * dict))
    (df : DataFrame) :
  sorts_descending sort →
  "priority_score" ∈ columns df → "aging_days" ∈ columns df →
  Forall (numeric_at "priority_score") (rows df) →
  Forall (numeric_at "aging_days") (rows df) →
  ∃ priority_df : DataFrame,
    prioritized_accounts sort df = Ok priority_df ∧
    Forall (fun r : dict =>
              ∃ aging_days : Q,
                cell_at "aging_days" r = CNum aging_days ∧
                (cell_at "next_action" r = CStr "Escalate to Collector"
                 ↔ cell_at "aging_bucket" r ∈ [CStr "61-90"; CStr "90+"]) ∧
                (cell_at "next_action" r = CStr "Auto-Followup Email"
                 ↔ cell_at "aging_bucket" r ∈ [CStr "0-30"; CStr "31-60"; CNaN]) ∧
                (cell_at "aging_bucket" r = CNaN ↔ aging_days <= 0))
      (rows priority_df).
Proof.
  intros Hsort Hp Ha Hnp Hna.
  destruct (sorted_rows_spec sort df Hsort Hnp) as [Hperm Hsorted].
  eexists. split.
  { apply prioritized_accounts_rows; [done | done | |]; by rewrite Hperm. }
  cbn [rows]. apply Forall_fmap, Forall_take. rewrite Hperm.
  eapply Forall_impl; [exact Hna |]. intros r [a Hag]. unfold compose, top_row.
  exists a. rewrite cell_at_insert.
  rewrite !(cell_at_insert_ne "next_action") by done.
  rewrite cell_at_insert, cell_at_insert_ne, cell_at_insert_ne by done.
  rewrite Hag. cbn [num_of]. split; [done |].
  unfold cut_aging, Qlt_bool.
  case_Qle a 0; [| case_Qle a 30; [| case_Qle a 60; [| case_Qle a 90]]];
    repeat match goal with
           | |- context [Qle_bool ?x ?y] => case_Qle x y; try lra
           end;
    cbn [negb]; (split; [| split]);
    try (split; [intros; try done; set_solver | intros; try done; try lra; set_solver]).
Qed.

Lemma bucket_and_action_agree_witness :
  ∃ priority_df : DataFrame,
    prioritized_accounts sort_stable tie_frame_outstanding = Ok priority_df ∧
    getcol priority_df "next_action"
    = Ok [CStr "Escalate to Collector"; CStr "Auto-Followup Email";
          CStr "Auto-Followup Email"].
Proof.
  destruct (bucket_and_action_agree sort_stable tie_frame_outstanding)
    as (priority_df & Hrun & _).
  - apply sort_stable_descending.
  - solve_elem.
  - solve_elem.
  - repeat (apply Forall_cons; split; [by eexists |]). by constructor.
  - repeat (apply Forall_cons; split; [by eexists |]). by constructor.
  - exists priority_df. split; [exact Hrun |].
    assert (prioritized_accounts sort_stable tie_frame_outstanding
              ≫= (fun d => getcol d "next_action")
            = Ok [CStr "Escalate to Collector"; CStr "Auto-Followup Email";
                  CStr "Auto-Followup Email"]) as H by (by vm_compute).
    by rewrite Hrun in H.
Defined.

(** ** The script, from the inputs to its end *)

Lemma shown_app (t1 t2 : trace) : shown (t1 ++ t2) = shown t1 ++ shown t2.
Proof. unfold shown. by rewrite omap_app. Qed.

Lemma shown_cons (e : entry) (tr : trace) : shown (e :: tr) = shown [e] ++ shown tr.
Proof. apply (shown_app [e] tr). Qed.

Lemma shown_mock (ws : list draws) : shown (concat (map trace_of ws)) = [].
Proof.
  induction ws as [|w ws IH]; [done |].
  cbn [map concat]. rewrite shown_app, IH. unfold trace_of.
  by destruct (Qlt_bool 0.7 (d_rand w)).
Qed.

(** X15.  With an API key, when the request fails or is answered with a
    status other than 200, the script shows the error, then the "no data"
    warning, and stops: no metric, table or chart is computed. *)
Theorem dashboard_on_failed_fetch {S} (h : handler S)
    (parse : cell → option Z)
    (sort : list (cell * dict) → list (cell * dict)) (key : string) (s : S) :
  refuses h →
  ∃ s' tr err,
    run h (dashboard parse sort (Some key)) s = (Raise StopException, s', tr) ∧
    is_error err = true ∧
    shown tr = [err; st_warning "No data in range. Adjust filters."] ∧
    length (requests tr) = 1%nat.
Proof.
  intros Hfail. unfold dashboard. do 5 run_step. rewrite run_bind.
  cbn [fetch_ar_data]. unfold fetch_real.
  rewrite run_try_except, run_bind.
  match goal with
  | |- context [run h (call (requests_get ?u ?hd ?p ?t)) ?st] =>
      pose proof (Hfail u hd p t st) as Hresp
  end.
  run_call resp s5. cbn [fst snd] in Hresp.
  destruct resp as [msg | code body].
  - cbn [run]. rewrite run_handler.
    unfold render. rewrite run_bind.
    change (empty DataFrame_empty) with true. cbv iota.
    rewrite run_bind, run_show. cbn [run].
    eexists _, _, (st_error_connection (RequestException msg)).
    split; [reflexivity |]. by split.
  - rewrite bool_decide_eq_false_2 by done.
    rewrite run_bind, run_show. cbn [run mret prog_ret].
    unfold render. rewrite run_bind.
    change (empty DataFrame_empty) with true. cbv iota.
    rewrite run_bind, run_show. cbn [run].
    eexists _, _, (st_error_api code).
    split; [reflexivity |]. by split.
Qed.

Lemma dashboard_on_failed_fetch_witness :
  ∃ s' tr err,
    run (scripted (Response 503 NotJson) 0.3)
      (dashboard parse_epoch sort_stable (Some "key"%string)) 0%nat
    = (Raise StopException, s', tr) ∧
    is_error err = true ∧
    shown tr = [err; st_warning "No data in range. Adjust filters."] ∧
    length (requests tr) = 1%nat.
Proof.
  apply (dashboard_on_failed_fetch (scripted (Response 503 NotJson) 0.3)).
  intros url headers params timeout s. cbn. done.
Defined.

(** X16.  With an API key, when the API answers with records that have a
    [status] and a readable [due_date] but no [priority_score], the fetch
    succeeds and the script then ends in the [KeyError] of
    [priority_score], at the filter, having shown nothing. *)
Theorem dashboard_on_api_records {S} (h : handler S)
    (parse : cell → option Z)
    (sort : list (cell * dict) → list (cell * dict)) (key : string) (s : S)
    (data : option (list (gmap string json))) :
  let records := records_of_json (default [] data) in
  answers_with h (Response 200 (JsonObject data)) →
  "due_date" ∈ columns (DataFrame_of records) →
  "status" ∈ columns (DataFrame_of records) →
  Forall (fun r => readable parse (cell_at "due_date" r)) records →
  "priority_score" ∉ columns (DataFrame_of records) →
  ∃ s' tr,
    run h (dashboard parse sort (Some key)) s
    = (Raise (KeyError "priority_score"), s', tr) ∧
    shown tr = [].
Proof.
  intros records Hresp Hdue Hstatus Hread Hscore.
  unfold dashboard. do 5 run_step. rewrite run_bind. cbn [fetch_ar_data].
  destruct (fetch_real_rows h parse key x0 x2 s4 data)
    as (today & u & s5 & ->); [apply Hresp | done ..|].
  fold records. unfold render. rewrite run_bind.
  assert (records ≠ []) as Hne.
  { intros Hnil. rewrite Hnil in Hdue. cbn in Hdue. set_solver. }
  match goal with
  | |- context [empty ?d] => assert (empty d = false) as ->
  end.
  { unfold empty. cbn [rows columns].
    rewrite bool_decide_eq_false_2 by set_solver.
    rewrite bool_decide_eq_false_2; [done |]. by destruct records. }
  cbn [run mret prog_ret]. rewrite run_bind, run_lift.
  unfold threshold_filter.
  rewrite getcol_notin by (cbn [columns]; set_solver).
  cbn [mbind result_bind]. eexists _, _. split; reflexivity.
Qed.

Lemma dashboard_on_api_records_witness :
  ∃ s' tr,
    run (scripted api_three 0.3)
      (dashboard parse_epoch sort_stable (Some "key"%string)) 0%nat
    = (Raise (KeyError "priority_score"), s', tr) ∧
    shown tr = [].
Proof.
  apply (dashboard_on_api_records (scripted api_three 0.3) parse_epoch
           sort_stable "key" 0%nat
           (Some [api_record; <["status" := JStr "denied"]> api_record;
                  <["status" := JStr "partial"]> api_record])).
  - intros url headers params timeout s. reflexivity.
  - solve_elem.
  - solve_elem.
  - repeat (apply Forall_cons; split; [right; eexists; reflexivity |]).
    by constructor.
  - apply (bool_decide_unpack _). vm_compute. exact I.
Defined.

Lemma mock_rows_numeric (c : string) (today : Z) (l : list (nat * Z))
    (ws : list draws) :
  c ∈ ["priority_score"; "outstanding"; "aging_days"] →
  Forall (numeric_at c) (map (derive today) (zip_with record_of l ws)).
Proof.
  intros Hc. eapply Forall_impl; [apply mock_rows_shape |].
  intros r (x & w & ->).
  repeat (apply elem_of_cons in Hc as [-> | Hc]; [by eexists |]).
  by apply elem_of_nil in Hc.
Qed.

(** X17.  Without an API key, whatever the clock, the draws and the
    widgets answer, and for any sort that orders rows by descending score,
    the script shows the demo notice, the four metrics, the rule, the
    table of prioritized accounts under its caption and the caption of the
    aging chart, in this order, and then ends in the [KeyError] of
    [aging_bucket]. *)
Theorem dashboard_in_demo_mode {S} (h : handler S)
    (parse : cell → option Z)
    (sort : list (cell * dict) → list (cell * dict)) (s : S) :
  sorts_descending sort →
  ∃ (s' : S) (tr : trace) (v1 v2 v3 v4 : cell) (table : DataFrame),
    run h (dashboard parse sort None) s
    = (Raise (KeyError "aging_bucket"), s', tr) ∧
    shown tr
    = [info_demo;
       st_metric "Total AR" v1; st_metric "Open Accounts" v2;
       st_metric "Avg DSO (Days)" v3; st_metric "Recovery Potential" v4;
       st_markdown "---";
       st_subheader "High-Priority Accounts (AI-Scored)";
       st_dataframe table;
       st_subheader "AR Aging Breakdown"].
Proof.
  intros Hsort. unfold dashboard. do 5 run_step. rewrite run_bind.
  cbn [fetch_ar_data].
  destruct (fetch_mock_run h parse s4) as (now & today & ws & s5 & Hlen & ->).
  set (data := zip_with record_of (enumerate (window now)) ws).
  pose proof (mock_rows_numeric "priority_score" today (enumerate (window now)) ws
                ltac:(set_solver)) as Hnp.
  pose proof (mock_rows_numeric "outstanding" today (enumerate (window now)) ws
                ltac:(set_solver)) as Hno.
  pose proof (mock_rows_numeric "aging_days" today (enumerate (window now)) ws
                ltac:(set_solver)) as Hna.
  fold data in Hnp, Hno, Hna.
  unfold render. rewrite run_bind.
  assert (empty (mkDataFrame mock_columns (map (derive today) data)) = false) as ->.
  { unfold empty. cbn [rows columns].
    rewrite bool_decide_eq_false_2.
    2:{ intros H. assert ("priority_score" ∈ mock_columns) as Hin by solve_elem.
        rewrite H in Hin. set_solver. }
    rewrite bool_decide_eq_false_2; [done |].
    subst data. destruct ws; [done | by cbn]. }
  cbn [run mret prog_ret]. rewrite run_bind, run_lift.
  rewrite threshold_filter_rows by (try solve_elem; done).
  cbn [rows columns].
  set (kept_rows := List.filter (kept x3) (map (derive today) data)).
  rewrite run_bind, run_lift.
  rewrite key_metrics_rows;
    [| solve_elem | solve_elem | by apply Forall_filter_bool ..].
  do 6 (rewrite run_bind, run_show). rewrite run_bind, run_lift.
  assert (Forall (numeric_at "priority_score") kept_rows) as Hnp'
    by by apply Forall_filter_bool.
  destruct (sorted_rows_spec sort (mkDataFrame mock_columns kept_rows) Hsort Hnp')
    as [Hperm _].
  rewrite prioritized_accounts_rows;
    [| solve_elem | solve_elem | rewrite Hperm; by apply Forall_filter_bool ..].
  rewrite run_bind, run_lift. unfold getcols. cbn [columns rows].
  match goal with
  | |- context [list_find ?P display_cols] =>
      assert (list_find P display_cols = None) as -> by (by vm_compute)
  end.
  do 2 (rewrite run_bind, run_show). rewrite run_bind, run_lift.
  unfold groupby_sum.
  rewrite (getcol_notin _ "aging_bucket")
    by (apply (bool_decide_unpack _); vm_compute; exact I).
  cbn [mbind result_bind]. eexists _, _, _, _, _, _, _.
  split; [reflexivity |].
  rewrite !shown_app, (shown_cons (Entry (st_show info_demo) tt)),
    (shown_cons (Entry datetime_now now)), shown_app, shown_mock.
  reflexivity.
Qed.

Lemma dashboard_in_demo_mode_witness :
  ∃ (s' : nat) (tr : trace) (v1 v2 v3 v4 : cell) (table : DataFrame),
    run (scripted (ConnectionFailed "") 0.3)
      (dashboard parse_epoch sort_stable None) 0%nat
    = (Raise (KeyError "aging_bucket"), s', tr) ∧
    shown tr
    = [info_demo;
       st_metric "Total AR" v1; st_metric "Open Accounts" v2;
       st_metric "Avg DSO (Days)" v3; st_metric "Recovery Potential" v4;
       st_markdown "---";
       st_subheader "High-Priority Accounts (AI-Scored)";
       st_dataframe table;
       st_subheader "AR Aging Breakdown"].
Proof.
  apply (dashboard_in_demo_mode (scripted (ConnectionFailed "") 0.3)
           parse_epoch sort_stable 0%nat).
  apply sort_stable_descending.
Defined.

(** ** The alerts *)

Lemma zip_with_map_pair {A B C D} (f : B → C → D) (g1 : A → B) (g2 : A → C)
    (l : list A) :
  zip_with f (map g1 l) (map g2 l) = map (fun x => f (g1 x) (g2 x)) l.
Proof. apply zip_with_map_both. Qed.

Lemma filter_bool_none {A} (f : A → bool) (l : list A) :
  Forall (fun x => f x = false) l → List.filter f l = [].
Proof. induction 1 as [|x l Hx _ IH]; [done |]. cbn. by rewrite Hx. Qed.

Lemma high_risk_rows (df : DataFrame) :
  "priority_score" ∈ columns df → "aging_days" ∈ columns df →
  Forall (numeric_at "priority_score") (rows df) →
  Forall (numeric_at "aging_days") (rows df) →
  high_risk df = Ok (mkDataFrame (columns df) (List.filter alerted (rows df))).
Proof.
  destruct df as [cols l]. cbn [rows columns]. intros Hp Ha Hnp Hna.
  unfold high_risk. rewrite (getcol_in _ "priority_score") by done.
  cbn [mbind result_bind rows]. unfold series_gt.
  rewrite (mapM_map_Ok _ _
             (fun r => Qlt_bool 0.7 (num_of (cell_at "priority_score" r)))).
  2:{ eapply Forall_impl; [exact Hnp |]. intros r [q Hq]. by rewrite Hq. }
  cbn [mbind result_bind]. rewrite (getcol_in _ "aging_days") by done.
  cbn [mbind result_bind rows].
  rewrite (mapM_map_Ok _ _
             (fun r => Qlt_bool 45 (num_of (cell_at "aging_days" r)))).
  2:{ eapply Forall_impl; [exact Hna |]. intros r [q Hq]. by rewrite Hq. }
  cbn [mbind result_bind mret result_ret].
  by rewrite zip_with_map_pair, select_map.
Qed.

(** X18.  The alerts are the first five, in the order of the frame, of
    the rows whose [priority_score] exceeds 0.7 and whose [aging_days]
    exceed 45: never more than five, none exactly when no row qualifies,
    and the rows after the fifth one that qualifies are left out. *)
Theorem alerts_first_five (df : DataFrame) :
  "priority_score" ∈ columns df → "aging_days" ∈ columns df →
  Forall (numeric_at "priority_score") (rows df) →
  Forall (numeric_at "aging_days") (rows df) →
  ∃ (alert : dict → bool) (cards : list dict),
    alert_rows df = Ok cards ∧
    (∀ (r : dict) (q a : Q),
       cell_at "priority_score" r = CNum q → cell_at "aging_days" r = CNum a →
       alert r = true ↔ 0.7 < q ∧ 45 < a) ∧
    cards = take 5 (List.filter alert (rows df)) ∧
    (length cards ≤ 5)%nat ∧
    (cards = [] ↔ Forall (fun r => alert r = false) (rows df)).
Proof.
  intros Hp Ha Hnp Hna. exists alerted. eexists.
  split.
  { unfold alert_rows. rewrite high_risk_rows by done.
    cbn [mbind result_bind mret result_ret]. reflexivity. }
  split.
  { intros r q a Hq Hag. unfold alerted. rewrite Hq, Hag. cbn [num_of].
    by rewrite andb_true_iff, !Qlt_bool_iff. }
  assert ((if empty (mkDataFrame (columns df) (List.filter alerted (rows df)))
           then []
           else rows (head 5 (mkDataFrame (columns df)
                                (List.filter alerted (rows df)))))
          = take 5 (List.filter alerted (rows df))) as ->.
  { unfold empty, head. cbn [rows columns].
    rewrite (bool_decide_eq_false_2 (columns df = ∅)) by set_solver.
    by destruct (List.filter alerted (rows df)). }
  split; [done |]. split; [rewrite length_take; lia |].
  split.
  - intros Hnil. apply Forall_forall. intros r Hr.
    destruct (alerted r) eqn:E; [| done].
    assert (r ∈ List.filter alerted (rows df)) as Hin.
    { apply list_elem_of_In, filter_In. split; [by apply list_elem_of_In | done]. }
    destruct (List.filter alerted (rows df)); [by apply elem_of_nil in Hin | done].
  - intros Hnone. by rewrite filter_bool_none.
Qed.

Lemma alerts_first_five_witness :
  ∃ (alert : dict → bool) (cards : list dict),
    alert_rows tie_frame_outstanding = Ok cards ∧ length cards = 1%nat.
Proof.
  destruct (alerts_first_five tie_frame_outstanding)
    as (alert & cards & Hrun & _).
  - solve_elem.
  - solve_elem.
  - repeat (apply Forall_cons; split; [by eexists |]). by constructor.
  - repeat (apply Forall_cons; split; [by eexists |]). by constructor.
  - exists alert, cards. split; [exact Hrun |].
    assert (alert_rows tie_frame_outstanding ≫= (fun c => mret (length c))
            = Ok 1%nat) as H by (by vm_compute).
    rewrite Hrun in H. by injection H.
Defined.

Lemma score_needs_age (a : Q) (payer_name status : cell) :
  0.7 < priority_score a payer_name status → 49.5 < a.
Proof.
  unfold priority_score.
  pose proof (payer_risk_of_bounds payer_name) as Hp.
  pose proof (risk_of_bounds status) as Hr.
  set (x := a / 90 * 0.4 + payer_risk_of payer_name * 0.3 + risk_of status * 0.3).
  assert (x == a * (1 # 90) * 0.4 + payer_risk_of payer_name * 0.3
               + risk_of status * 0.3) as Hx by (subst x; by rewrite Qdiv_90).
  destruct (clip_unit x) as (H0 & H01 & H1). intros Hs.
  destruct (Qlt_le_dec x 0) as [Hneg | Hpos].
  { rewrite H0 in Hs by done. lra. }
  destruct (Qlt_le_dec 1 x) as [Hbig | Hsmall]; [lra |].
  rewrite H01 in Hs by done. lra.
Qed.

(** X19.  On a frame scored by [calculate_priority], as the mock frame
    is, a score above 0.7 needs [aging_days] above 49.5; so the second
    condition of line 144 removes nothing: the rows at high risk are the
    rows whose score exceeds 0.7. *)
Theorem alert_age_condition_is_implied (df : DataFrame) :
  "payer_name" ∈ columns df → "status" ∈ columns df →
  "aging_days" ∈ columns df →
  Forall (numeric_at "aging_days") (rows df) →
  ∃ (df1 df2 hr : DataFrame) (score : Series),
    calculate_priority df = Ok (df1, score) ∧
    setcol df1 "priority_score" score = Ok df2 ∧
    high_risk df2 = Ok hr ∧
    rows hr
    = List.filter (fun r => Qlt_bool 0.7 (num_of (cell_at "priority_score" r)))
        (rows df2) ∧
    Forall (fun r => ∃ a, cell_at "aging_days" r = CNum a ∧ 49.5 < a) (rows hr).
Proof.
  intros Hp Hs Ha Hnum. eexists _, _, _, _.
  split; [by apply calculate_priority_rows |].
  split; [apply setcol_map_rows |].
  set (f := fun r : dict => <["priority_score" := score_row r]> (with_payer_risk r)).
  assert (∀ r, numeric_at "aging_days" r →
               ∃ a, cell_at "aging_days" (f r) = CNum a
                    ∧ cell_at "priority_score" (f r)
                      = CNum (priority_score a (cell_at "payer_name" r)
                                (cell_at "status" r))) as Hf.
  { intros r [a Hr]. exists a. subst f. cbn beta. unfold with_payer_risk.
    rewrite cell_at_insert, !cell_at_insert_ne by done.
    split; [done |]. unfold score_row. by rewrite Hr. }
  assert (Forall (fun r2 => ∃ a p st,
                    cell_at "aging_days" r2 = CNum a
                    ∧ cell_at "priority_score" r2 = CNum (priority_score a p st))
            (map f (rows df))) as Hrows.
  { apply Forall_fmap. eapply Forall_impl; [exact Hnum |]. intros r Hr.
    destruct (Hf r Hr) as (a & H1 & H2). by eexists _, _, _. }
  split.
  { apply high_risk_rows; cbn [rows columns]; [set_solver | set_solver | |];
      (eapply Forall_impl; [exact Hrows |]); intros r (a & p & st & H1 & H2);
      by eexists. }
  cbn [rows].
  assert (List.filter alerted (map f (rows df))
          = List.filter (fun r => Qlt_bool 0.7 (num_of (cell_at "priority_score" r)))
              (map f (rows df))) as Heq.
  { apply filter_ext_in. intros r Hr. apply list_elem_of_In in Hr.
    rewrite Forall_forall in Hrows.
    destruct (Hrows r Hr) as (a & p & st & H1 & H2).
    unfold alerted. rewrite H1, H2. cbn [num_of].
    destruct (Qlt_bool 0.7 (priority_score a p st)) eqn:E; [| done].
    apply Qlt_bool_iff, score_needs_age in E. cbn [andb].
    apply Qlt_bool_iff. lra. }
  split; [exact Heq |].
  change (Forall (fun r => ∃ a, cell_at "aging_days" r = CNum a ∧ 49.5 < a)
            (List.filter alerted (map f (rows df)))).
  rewrite Heq. apply Forall_forall. intros r Hr.
  apply list_elem_of_In, filter_In in Hr as [Hr Hq].
  apply list_elem_of_In in Hr. rewrite Forall_forall in Hrows.
  destruct (Hrows r Hr) as (a & p & st & H1 & H2).
  exists a. split; [done |]. rewrite H2 in Hq. cbn [num_of] in Hq.
  by apply Qlt_bool_iff, score_needs_age in Hq.
Qed.

Lemma alert_age_condition_is_implied_witness :
  ∃ (df1 df2 hr : DataFrame) (score : Series),
    calculate_priority (one_record 80 (CStr "Aetna") (CStr "denied"))
    = Ok (df1, score) ∧
    setcol df1 "priority_score" score = Ok df2 ∧
    high_risk df2 = Ok hr ∧
    Forall (fun r => ∃ a, cell_at "aging_days" r = CNum a ∧ 49.5 < a) (rows hr).
Proof.
  destruct (alert_age_condition_is_implied
              (one_record 80 (CStr "Aetna") (CStr "denied")))
    as (df1 & df2 & hr & score & H1 & H2 & H3 & _ & H4).
  - solve_elem.
  - solve_elem.
  - solve_elem.
  - constructor; [by eexists | constructor].
  - by exists df1, df2, hr, score.
Defined.

(** ** Grouping *)












